(** * scripts/create_release.py: the release publisher

    A shallow embedding of [main] of [scripts/create_release.py] and of the
    Python built-ins it calls ([str] operations, [int], [json.dumps],
    [str.encode], [bytes.decode], [datetime.strftime], [urlopen]), followed
    by the properties of the script.

    Conventions.
    - A Python [str] is the list of its code points, a [bytes] object the
      list of its byte values, both as [list N].
    - [os.environ] is a finite map from names to values.
    - The script runs in a small state-and-exception monad: the state holds
      what the process has written to standard output, the requests handed
      to [urlopen] and the number of clock readings taken so far.
    - Standard output is taken to be a text stream that accepts every line
      (UTF-8); redirects are followed inside [urlopen], whose model starts
      from the final exchange with the server. *)

From Stdlib Require Import NArith ZArith String Ascii List Bool Lia.
From Stdlib Require Import DecimalZ.
From stdpp Require Import base option list gmap.

Import ListNotations.

(** ** Python strings *)

Abbreviation pystr := (list N) (only parsing).
Abbreviation pybytes := (list N) (only parsing).

(** A source-code literal (ASCII) as a Python [str]. *)
Fixpoint py (s : string) : pystr :=
  match s with
  | EmptyString => []
  | String a s' => N_of_ascii a :: py s'
  end.

Fixpoint startswith (prefix s : pystr) : bool :=
  match prefix, s with
  | [], _ => true
  | _ :: _, [] => false
  | p :: prefix', c :: s' => N.eqb p c && startswith prefix' s'
  end.

(** [needle in hay] on [str]. *)
Fixpoint contains (needle hay : pystr) : bool :=
  startswith needle hay ||
  match hay with
  | [] => false
  | _ :: hay' => contains needle hay'
  end.

(** [str(n)] and [repr(n)] of an [int]. *)
Fixpoint uint_str (d : Decimal.uint) : pystr :=
  match d with
  | Decimal.Nil => []
  | Decimal.D0 d => 48%N :: uint_str d
  | Decimal.D1 d => 49%N :: uint_str d
  | Decimal.D2 d => 50%N :: uint_str d
  | Decimal.D3 d => 51%N :: uint_str d
  | Decimal.D4 d => 52%N :: uint_str d
  | Decimal.D5 d => 53%N :: uint_str d
  | Decimal.D6 d => 54%N :: uint_str d
  | Decimal.D7 d => 55%N :: uint_str d
  | Decimal.D8 d => 56%N :: uint_str d
  | Decimal.D9 d => 57%N :: uint_str d
  end.

Definition str_int (z : Z) : pystr :=
  match Z.to_int z with
  | Decimal.Pos d => uint_str d
  | Decimal.Neg d => 45%N :: uint_str d
  end.

(** ** The interpreter's tables

    What [int] and [strftime] take from the running interpreter rather than
    from the script: the Unicode database beyond ASCII, the limit of
    [sys.get_int_max_str_digits()] and the C library's rendering of [%Y]. *)

Record runtime := {
  (** decimal value (0 to 9) of a code point of category Nd, from 127 on *)
  rt_decimal : N -> option N;
  (** whether a code point from 127 on is Unicode whitespace *)
  rt_isspace : N -> bool;
  (** [sys.get_int_max_str_digits()]; 0 switches the limit off *)
  rt_max_str_digits : N;
  (** whether [%Y] zero-fills years below 1000 to four digits *)
  rt_year_zero_fill : bool
}.

(** ** [int(s)] for a [str], base 10 *)

Section PyInt.
Variable rt : runtime.
Local Open Scope N_scope.

(** Code points below 127 are kept; beyond, whitespace becomes a space,
    a decimal digit its ASCII digit, anything else ['?']. *)
Definition to_ascii_decimal (c : N) : N :=
  if c <? 127 then c
  else if rt_isspace rt c then 32
  else match rt_decimal rt c with
       | Some d => 48 + d
       | None => 63
       end.

(** C's [isspace] on ASCII: tab, newline, vertical tab, form feed,
    carriage return, space. *)
Definition is_c_space (c : N) : bool :=
  ((9 <=? c) && (c <=? 13)) || (c =? 32).

Fixpoint skip_spaces (s : pystr) : pystr :=
  match s with
  | c :: s' => if is_c_space c then skip_spaces s' else s
  | [] => []
  end.

Definition digit_value (c : N) : option N :=
  if (48 <=? c) && (c <=? 57) then Some (c - 48) else None.

(** The scan over digits and underscores: the value read, the number of
    digits, and the unread rest; [None] on a doubled or trailing
    underscore. [prev_us] tells whether the last character was ['_']. *)
Fixpoint scan_digits (prev_us : bool) (acc digits : N) (s : pystr)
  : option (N * N * pystr) :=
  match s with
  | c :: r =>
      if c =? 95 then
        if prev_us then None else scan_digits true acc digits r
      else
        match digit_value c with
        | Some d => scan_digits false (10 * acc + d) (digits + 1) r
        | None => if prev_us then None else Some (acc, digits, s)
        end
  | [] => if prev_us then None else Some (acc, digits, [])
  end.

(** [None] stands for [ValueError]. *)
Definition py_int (s : pystr) : option Z :=
  let t := skip_spaces (map to_ascii_decimal s) in
  let '(negative, t) :=
    match t with
    | 43 :: r => (false, r)
    | 45 :: r => (true, r)
    | _ => (false, t)
    end in
  match t with
  | 95 :: _ => None
  | _ =>
      match scan_digits false 0 0 t with
      | None => None
      | Some (v, digits, rest) =>
          if digits =? 0 then None
          else if (640 <? digits) && (0 <? rt_max_str_digits rt)
                  && (rt_max_str_digits rt <? digits) then None
          else
            match skip_spaces rest with
            | [] => Some (if negative then (- Z.of_N v)%Z else Z.of_N v)
            | _ :: _ => None
            end
      end
  end.
End PyInt.

(** ** [json.dumps] with its defaults ([ensure_ascii=True]) *)

Inductive json :=
| JStr (s : pystr)
| JInt (z : Z)
| JBool (b : bool).

(** A [dict] with [str] keys, in insertion order. *)
Abbreviation pydict := (list (list N * json)) (only parsing).

Fixpoint dict_get (k : pystr) (d : pydict) : option json :=
  match d with
  | [] => None
  | (k', v) :: d' => if decide (k = k') then Some v else dict_get k d'
  end.

Section Json.
Local Open Scope N_scope.

Definition hexdigit (d : N) : N := if d <? 10 then 48 + d else 87 + d.

(** ['{0:04x}'.format(n)] for [n < 0x10000]. *)
Definition hex4 (n : N) : pystr :=
  [hexdigit (n / 4096 mod 16); hexdigit (n / 256 mod 16);
   hexdigit (n / 16 mod 16); hexdigit (n mod 16)].

Definition u_escape (n : N) : pystr := [92; 117] ++ hex4 n.

(** The replacement of one character by [encode_basestring_ascii]. *)
Definition escape_char (c : N) : pystr :=
  if c =? 34 then [92; 34]
  else if c =? 92 then [92; 92]
  else if c =? 8 then [92; 98]
  else if c =? 12 then [92; 102]
  else if c =? 10 then [92; 110]
  else if c =? 13 then [92; 114]
  else if c =? 9 then [92; 116]
  else if (32 <=? c) && (c <=? 126) then [c]
  else if c <? 65536 then u_escape c
  else
    let n := c - 65536 in
    u_escape (N.lor 55296 (N.land (N.shiftr n 10) 1023))
    ++ u_escape (N.lor 56320 (N.land n 1023)).

Definition dumps_str (s : pystr) : pystr :=
  [34] ++ concat (map escape_char s) ++ [34].

Definition dumps_value (v : json) : pystr :=
  match v with
  | JStr s => dumps_str s
  | JInt z => str_int z
  | JBool true => py "true"
  | JBool false => py "false"
  end.

Definition dumps_item (kv : pystr * json) : pystr :=
  dumps_str (fst kv) ++ py ": " ++ dumps_value (snd kv).

Fixpoint join (sep : pystr) (l : list pystr) : pystr :=
  match l with
  | [] => []
  | [x] => x
  | x :: l' => x ++ sep ++ join sep l'
  end.

Definition json_dumps (d : pydict) : pystr :=
  py "{" ++ join (py ", ") (map dumps_item d) ++ py "}".
End Json.

(** ** UTF-8 *)

Section Utf8.
Local Open Scope N_scope.

Definition is_surrogate (c : N) : bool := (55296 <=? c) && (c <=? 57343).

(** [None] stands for [UnicodeEncodeError]. *)
Definition encode_char (c : N) : option pybytes :=
  if c <? 128 then Some [c]
  else if c <? 2048 then Some [192 + c / 64; 128 + c mod 64]
  else if c <? 65536 then
    if is_surrogate c then None
    else Some [224 + c / 4096; 128 + c / 64 mod 64; 128 + c mod 64]
  else if c <? 1114112 then
    Some [240 + c / 262144; 128 + c / 4096 mod 64;
          128 + c / 64 mod 64; 128 + c mod 64]
  else None.

Fixpoint encode_utf8 (s : pystr) : option pybytes :=
  match s with
  | [] => Some []
  | c :: s' =>
      match encode_char c, encode_utf8 s' with
      | Some b, Some bs => Some (b ++ bs)
      | _, _ => None
      end
  end.

Definition is_cont (b : N) : bool := (128 <=? b) && (b <=? 191).

(** Strict decoding; [None] stands for [UnicodeDecodeError]. *)
Fixpoint decode_utf8 (b : pybytes) : option pystr :=
  match b with
  | [] => Some []
  | b0 :: r =>
      if b0 <? 128 then cons b0 <$> decode_utf8 r
      else if (194 <=? b0) && (b0 <=? 223) then
        match r with
        | b1 :: r1 =>
            if is_cont b1
            then cons ((b0 - 192) * 64 + (b1 - 128)) <$> decode_utf8 r1
            else None
        | _ => None
        end
      else if (224 <=? b0) && (b0 <=? 239) then
        match r with
        | b1 :: b2 :: r2 =>
            let c := (b0 - 224) * 4096 + (b1 - 128) * 64 + (b2 - 128) in
            if is_cont b1 && is_cont b2 && (2048 <=? c) && negb (is_surrogate c)
            then cons c <$> decode_utf8 r2
            else None
        | _ => None
        end
      else if (240 <=? b0) && (b0 <=? 244) then
        match r with
        | b1 :: b2 :: b3 :: r3 =>
            let c := (b0 - 240) * 262144 + (b1 - 128) * 4096
                     + (b2 - 128) * 64 + (b3 - 128) in
            if is_cont b1 && is_cont b2 && is_cont b3
               && (65536 <=? c) && (c <? 1114112)
            then cons c <$> decode_utf8 r3
            else None
        | _ => None
        end
      else None
  end.
End Utf8.

(** ** [datetime] and [strftime] *)

Record datetime := {
  year : N; month : N; day : N; hour : N; minute : N; second : N
}.

Section Strftime.
Variable rt : runtime.
Local Open Scope N_scope.

(** [s.zfill(width)]. *)
Definition zfill (width : nat) (s : pystr) : pystr :=
  repeat 48 (width - length s) ++ s.

(** [%m], [%d], [%H], [%M], [%S]: two digits. *)
Definition two_digits (n : N) : pystr := [48 + n / 10; 48 + n mod 10].

(** [%Y]. *)
Definition year_digits (y : N) : pystr :=
  if rt_year_zero_fill rt
  then zfill 4 (str_int (Z.of_N y))
  else str_int (Z.of_N y).

(** [d.strftime("%Y-%m-%dT%H:%M:%SZ")]. *)
Definition strftime (d : datetime) : pystr :=
  year_digits (year d) ++ py "-" ++ two_digits (month d) ++ py "-"
  ++ two_digits (day d) ++ py "T" ++ two_digits (hour d) ++ py ":"
  ++ two_digits (minute d) ++ py ":" ++ two_digits (second d) ++ py "Z".
End Strftime.

(** ** The process and its surroundings *)

(** [urllib.request.Request]. *)
Record request := {
  req_url : pystr;
  req_data : pybytes;
  req_headers : list (pystr * pystr);
  req_method : pystr
}.

(** Why no response arrived; [urlopen] wraps each in [URLError]. *)
Inductive transport_failure := ConnectionFailed | TLSFailed | DNSFailed.

(** What reading the body of a response yields: the bytes, or the
    connection breaks before the end. *)
Inductive read_result :=
| Body (b : pybytes)
| Truncated.

(** The final exchange with the server for one request. *)
Inductive exchange :=
| Reply (status : Z) (body : read_result)
| NoReply (why : transport_failure).

Inductive exn :=
| KeyError (key : pystr)
| ValueError
| UnicodeEncodeError
| UnicodeDecodeError
| URLError (reason : transport_failure)
| HTTPError (code : Z) (body : read_result)
| IncompleteRead
| SystemExit (code : Z).

(** The object [urlopen] returns. *)
Record response := {
  status : Z;
  content : read_result
}.

Record world := {
  stdout : list pystr;
  network_log : list request;
  clock_reads : nat
}.

Definition init_world : world :=
  {| stdout := []; network_log := []; clock_reads := 0 |}.

Inductive result (A : Type) :=
| Ok (a : A)
| Raise (e : exn).
Arguments Ok {A} a.
Arguments Raise {A} e.

(** Computations of the script: state passing, with exceptions that keep
    the state reached. *)
Definition M (A : Type) : Type := world -> result A * world.

Definition ret {A} (a : A) : M A := fun w => (Ok a, w).

Definition bind {A B} (c : M A) (k : A -> M B) : M B :=
  fun w =>
    match c w with
    | (Ok a, w') => k a w'
    | (Raise e, w') => (Raise e, w')
    end.

Definition raise {A} (e : exn) : M A := fun w => (Raise e, w).

Notation "'do' x <- c ; k" := (bind c (fun x => k))
  (at level 10, x name, c at level 100, k at level 200).
Notation "c ;; k" := (bind c (fun _ => k))
  (at level 100, k at level 200, right associativity).

(** [try: body except HTTPError as e: handler]. *)
Definition try_except_HTTPError {A}
    (body : M A) (handler : Z -> read_result -> M A) : M A :=
  fun w =>
    match body w with
    | (Raise (HTTPError code b), w') => handler code b w'
    | r => r
    end.

Definition print (line : pystr) : M unit :=
  fun w => (Ok tt, {| stdout := stdout w ++ [line];
                      network_log := network_log w;
                      clock_reads := clock_reads w |}).

Definition sys_exit {A} (code : Z) : M A := raise (SystemExit code).

Definition of_option {A} (e : exn) (o : option A) : M A :=
  match o with
  | Some a => ret a
  | None => raise e
  end.

(** [b.decode("utf-8")] and [s.encode("utf-8")]. *)
Definition decode (b : pybytes) : M pystr :=
  of_option UnicodeDecodeError (decode_utf8 b).
Definition encode (s : pystr) : M pybytes :=
  of_option UnicodeEncodeError (encode_utf8 s).

(** [response.read()] and [e.read()]. *)
Definition read (c : read_result) : M pybytes :=
  match c with
  | Body b => ret b
  | Truncated => raise IncompleteRead
  end.

(** The process as seen from outside once it has ended; [traceback] is the
    uncaught exception reported on standard error, if any. *)
Record process := {
  exit_code : Z;
  traceback : option exn;
  final : world
}.

(** How the interpreter ends the process: a normal return exits with 0,
    [sys.exit(n)] with [n], and an uncaught exception prints its traceback
    on standard error and exits with 1. *)
Definition exit_status {A} (r : result A) : Z :=
  match r with
  | Ok _ => 0
  | Raise (SystemExit n) => n
  | Raise _ => 1
  end.

Definition uncaught {A} (r : result A) : option exn :=
  match r with
  | Ok _ => None
  | Raise (SystemExit _) => None
  | Raise e => Some e
  end.

Section Script.
Variable rt : runtime.
Variable environ : gmap (list N) (list N).
(** The UTC clock: its n-th reading within the run. *)
Variable clock : nat -> datetime.
(** What the network and the server make of a request. *)
Variable server : request -> exchange.

(** [os.environ[key]]. *)
Definition environ_getitem (key : pystr) : M pystr :=
  of_option (KeyError key) (environ !! key).

(** [os.environ.get(key, default)]. *)
Definition environ_get (key default : pystr) : pystr :=
  match environ !! key with
  | Some v => v
  | None => default
  end.

(** [int(s)]. *)
Definition int (s : pystr) : M Z := of_option ValueError (py_int rt s).

(** [datetime.utcnow()]. *)
Definition utcnow : M datetime :=
  fun w => (Ok (clock (clock_reads w)),
            {| stdout := stdout w;
               network_log := network_log w;
               clock_reads := S (clock_reads w) |}).

(** [urlopen(req)] with the default opener: a status from 200 to 299 is
    returned as a response, any other is raised as [HTTPError], and a
    transport failure as [URLError]. *)
Definition urlopen (req : request) : M response :=
  fun w =>
    let w' := {| stdout := stdout w;
                 network_log := network_log w ++ [req];
                 clock_reads := clock_reads w |} in
    match server req with
    | Reply code b =>
        if ((200 <=? code) && (code <? 300))%Z
        then (Ok {| status := code; content := b |}, w')
        else (Raise (HTTPError code b), w')
    | NoReply why => (Raise (URLError why), w')
    end.

(** Line 12. *)
Definition channel (version : pystr) : pystr :=
  if contains (py "beta") version then py "beta" else py "stable".

(** Line 24. *)
Definition download_url (github_repo version : pystr) : pystr :=
  py "https://github.com/" ++ github_repo ++ py "/releases/download/v"
  ++ version ++ py "/TheQuickFox-" ++ version ++ py ".zip".

(** Lines 19 to 30. *)
Definition payload (version release_notes github_repo signature : pystr)
    (file_size : Z) (published_at : pystr) : pydict :=
  [ (py "version", JStr version);
    (py "build_number", JStr version);
    (py "channel", JStr (channel version));
    (py "release_notes", JStr release_notes);
    (py "download_url", JStr (download_url github_repo version));
    (py "signature", JStr signature);
    (py "file_size", JInt file_size);
    (py "minimum_os_version", JStr (py "13.0"));
    (py "is_critical", JBool false);
    (py "published_at", JStr published_at) ].

Definition failure_marker : pystr :=
  [10060%N; 32%N] ++ py "Failed to create release record".
Definition success_marker : pystr :=
  [9989%N; 32%N] ++ py "Release record created successfully".

(** Lines 43 to 59. *)
Definition submit (req : request) : M unit :=
  try_except_HTTPError
    (do response <- urlopen req;
     let status := status response in
     do raw <- read (content response);
     do body <- decode raw;
     print (py "HTTP Status: " ++ str_int status);;
     print (py "Response: " ++ body);;
     if negb (status =? 201)%Z then
       print failure_marker;;
       sys_exit 1%Z
     else
       print success_marker)
    (fun code e_body =>
       print (py "HTTP Status: " ++ str_int code);;
       do raw <- read e_body;
       do body <- decode raw;
       print (py "Response: " ++ body);;
       print failure_marker;;
       sys_exit 1%Z).

Definition main : M unit :=
  do version <- environ_getitem (py "VERSION");
  let release_notes := environ_get (py "RELEASE_NOTES") (py "") in
  let github_repo :=
    environ_get (py "GITHUB_REPOSITORY") (py "foxwise-ai/TheQuickFox") in
  do signature <- environ_getitem (py "SPARKLE_SIGNATURE");
  do file_size_var <- environ_getitem (py "FILE_SIZE");
  do file_size <- int file_size_var;
  do api_token <- environ_getitem (py "INTERNAL_API_TOKEN");
  do now <- utcnow;
  let payload :=
    payload version release_notes github_repo signature file_size
            (strftime rt now) in
  do data <- encode (json_dumps payload);
  let req :=
    {| req_url := py "https://api.thequickfox.ai/api/v1/internal/releases";
       req_data := data;
       req_headers :=
         [ (py "Authorization", py "Bearer " ++ api_token);
           (py "Content-Type", py "application/json") ];
       req_method := py "POST" |} in
  submit req.

(** The process of one run of the script. *)
Definition run : process :=
  let (r, w) := main init_world in
  {| exit_code := exit_status r; traceback := uncaught r; final := w |}.
End Script.

(** ** Facts about the built-ins *)

Lemma startswith_spec (prefix s : list N) :
  startswith prefix s = true <-> exists post, s = prefix ++ post.
Proof.
  revert s. induction prefix as [|p prefix IH]; intros s; simpl.
  - split; [intros _; exists s; reflexivity | reflexivity].
  - destruct s as [|c s].
    + split; [discriminate | intros [post H]; discriminate].
    + rewrite andb_true_iff, N.eqb_eq, IH. split.
      * intros [-> [post ->]]. exists post. reflexivity.
      * intros [post H]. injection H as -> ->. split; [reflexivity | eauto].
Qed.

Lemma contains_spec (needle hay : list N) :
  contains needle hay = true <-> exists pre post, hay = pre ++ needle ++ post.
Proof.
  induction hay as [|c hay IH].
  - cbn [contains]. rewrite orb_false_r, startswith_spec. split.
    + intros [post H]. exists [], post. exact H.
    + intros [pre [post H]]. destruct pre as [|x pre]; [eauto | discriminate].
  - cbn [contains]. rewrite orb_true_iff, startswith_spec, IH. split.
    + intros [[post H] | [pre [post H]]].
      * exists [], post. exact H.
      * exists (c :: pre), post. rewrite H. reflexivity.
    + intros [pre [post H]]. destruct pre as [|x pre].
      * left. exists post. exact H.
      * right. injection H as -> ->. eauto.
Qed.

(** Strings of code points below 128, which UTF-8 leaves as they are. *)
Definition is_ascii (s : list N) : bool := forallb (fun c => c <? 128)%N s.

Lemma is_ascii_app (s t : list N) :
  is_ascii (s ++ t) = is_ascii s && is_ascii t.
Proof. apply forallb_app. Qed.

Lemma encode_utf8_ascii (s : list N) :
  is_ascii s = true -> encode_utf8 s = Some s.
Proof.
  induction s as [|c s IH]; simpl; [reflexivity |].
  rewrite andb_true_iff. intros [Hc Hs].
  unfold encode_char. rewrite Hc, (IH Hs). reflexivity.
Qed.

Lemma uint_str_ascii (d : Decimal.uint) : is_ascii (uint_str d) = true.
Proof. induction d; simpl; auto. Qed.

Lemma str_int_ascii (z : Z) : is_ascii (str_int z) = true.
Proof.
  unfold str_int. destruct (Z.to_int z); simpl; apply uint_str_ascii.
Qed.

Lemma hexdigit_ascii (n : N) : (hexdigit (n mod 16) <? 128)%N = true.
Proof.
  apply N.ltb_lt. unfold hexdigit.
  pose proof (N.mod_lt n 16).
  destruct (N.ltb_spec (n mod 16) 10); lia.
Qed.

Lemma u_escape_ascii (n : N) : is_ascii (u_escape n) = true.
Proof.
  unfold u_escape, hex4. cbn [is_ascii forallb app].
  rewrite !hexdigit_ascii. reflexivity.
Qed.

Lemma escape_char_ascii (c : N) : is_ascii (escape_char c) = true.
Proof.
  unfold escape_char.
  repeat (match goal with
          | |- context [if ?b then _ else _] => destruct b eqn:?
          end; try reflexivity).
  - cbn. rewrite andb_true_r. apply N.ltb_lt.
    apply andb_true_iff in Heqb6 as [_ H]. apply N.leb_le in H. lia.
  - apply u_escape_ascii.
  - rewrite is_ascii_app, !u_escape_ascii. reflexivity.
Qed.

Lemma dumps_str_ascii (s : list N) : is_ascii (dumps_str s) = true.
Proof.
  unfold dumps_str. rewrite !is_ascii_app, andb_true_r. cbn [is_ascii forallb].
  change (is_ascii (concat (map escape_char s)) = true).
  induction s as [|c s IH]; [reflexivity |].
  cbn [map concat]. rewrite is_ascii_app, escape_char_ascii. exact IH.
Qed.

Lemma dumps_item_ascii (kv : list N * json) : is_ascii (dumps_item kv) = true.
Proof.
  unfold dumps_item. rewrite !is_ascii_app, dumps_str_ascii.
  destruct (snd kv) as [s | z | []]; cbn [dumps_value].
  - rewrite dumps_str_ascii. reflexivity.
  - rewrite str_int_ascii. reflexivity.
  - reflexivity.
  - reflexivity.
Qed.

Lemma json_dumps_ascii (d : list (list N * json)) :
  is_ascii (json_dumps d) = true.
Proof.
  unfold json_dumps. rewrite !is_ascii_app, andb_true_r.
  change (is_ascii (join (py ", ") (map dumps_item d)) = true).
  induction d as [|kv d IH]; [reflexivity |].
  cbn [map join]. destruct (map dumps_item d) as [|x l] eqn:E.
  - apply dumps_item_ascii.
  - rewrite !is_ascii_app, dumps_item_ascii, IH. reflexivity.
Qed.

(** The body of the request is the text of the JSON document itself. *)
Lemma encode_json_dumps (d : list (list N * json)) :
  encode_utf8 (json_dumps d) = Some (json_dumps d).
Proof. apply encode_utf8_ascii, json_dumps_ascii. Qed.

(** ** The two stages of a run *)

Definition required_vars : list (list N) :=
  [py "VERSION"; py "SPARKLE_SIGNATURE"; py "FILE_SIZE";
   py "INTERNAL_API_TOKEN"].

(** The spec's ConfigError: the [KeyError] of a required variable, or the
    [ValueError] of [int]. *)
Definition is_config_error (e : exn) : Prop :=
  match e with
  | KeyError key => In key required_vars
  | ValueError => True
  | _ => False
  end.

(** The request [main] builds from resolved inputs and a clock reading. *)
Definition request_for (rt : runtime) (environ : gmap (list N) (list N))
    (now : datetime) (version signature : list N) (file_size : Z)
    (api_token : list N) : request :=
  {| req_url := py "https://api.thequickfox.ai/api/v1/internal/releases";
     req_data :=
       json_dumps
         (payload version
            (environ_get environ (py "RELEASE_NOTES") (py ""))
            (environ_get environ (py "GITHUB_REPOSITORY")
               (py "foxwise-ai/TheQuickFox"))
            signature file_size (strftime rt now));
     req_headers :=
       [ (py "Authorization", py "Bearer " ++ api_token);
         (py "Content-Type", py "application/json") ];
     req_method := py "POST" |}.

(** The inputs resolve: every required variable is set and [FILE_SIZE]
    parses. *)
Definition resolved (rt : runtime) (environ : gmap (list N) (list N))
    (version signature : list N) (file_size : Z) (api_token : list N) : Prop :=
  environ !! py "VERSION" = Some version /\
  environ !! py "SPARKLE_SIGNATURE" = Some signature /\
  (exists v, environ !! py "FILE_SIZE" = Some v /\ py_int rt v = Some file_size) /\
  environ !! py "INTERNAL_API_TOKEN" = Some api_token.

Section RunFacts.
Variable rt : runtime.
Variable environ : gmap (list N) (list N).
Variable clock : nat -> datetime.
Variable server : request -> exchange.

Let w1 : world := {| stdout := []; network_log := []; clock_reads := 1 |}.

Lemma main_resolved version signature file_size api_token :
  resolved rt environ version signature file_size api_token ->
  main rt environ clock server init_world
  = submit server
      (request_for rt environ (clock 0%nat) version signature file_size
         api_token) w1.
Proof.
  intros (Hv & Hs & (v & Hf & Hi) & Ht).
  unfold main, bind, environ_getitem, int, encode.
  rewrite Hv, Hs, Hf. cbn [of_option ret]. rewrite Hi, Ht.
  cbn [of_option ret utcnow init_world clock_reads].
  rewrite encode_json_dumps. reflexivity.
Qed.

(** A run either stops on a configuration error with nothing done, or
    resolves its inputs and submits the request. *)
Lemma main_cases :
  (exists e, is_config_error e /\
             main rt environ clock server init_world = (Raise e, init_world))
  \/ (exists version signature file_size api_token,
        resolved rt environ version signature file_size api_token).
Proof.
  unfold resolved.
  destruct (environ !! py "VERSION") as [version|] eqn:Hv.
  2:{ left. exists (KeyError (py "VERSION")). split; [cbn; tauto |].
      unfold main, bind, environ_getitem. rewrite Hv. reflexivity. }
  destruct (environ !! py "SPARKLE_SIGNATURE") as [signature|] eqn:Hs.
  2:{ left. exists (KeyError (py "SPARKLE_SIGNATURE")). split; [cbn; tauto |].
      unfold main, bind, environ_getitem. rewrite Hv, Hs. reflexivity. }
  destruct (environ !! py "FILE_SIZE") as [v|] eqn:Hf.
  2:{ left. exists (KeyError (py "FILE_SIZE")). split; [cbn; tauto |].
      unfold main, bind, environ_getitem. rewrite Hv, Hs, Hf. reflexivity. }
  destruct (py_int rt v) as [file_size|] eqn:Hi.
  2:{ left. exists ValueError. split; [exact I |].
      unfold main, bind, environ_getitem, int. rewrite Hv, Hs, Hf.
      cbn [of_option ret]. rewrite Hi. reflexivity. }
  destruct (environ !! py "INTERNAL_API_TOKEN") as [api_token|] eqn:Ht.
  2:{ left. exists (KeyError (py "INTERNAL_API_TOKEN")).
      split; [cbn; tauto |].
      unfold main, bind, environ_getitem, int. rewrite Hv, Hs, Hf.
      cbn [of_option ret]. rewrite Hi, Ht. reflexivity. }
  right. exists version, signature, file_size, api_token. eauto 10.
Qed.

(** Whatever the outcome, [submit] hands exactly its request to
    [urlopen] and does not read the clock. *)
Lemma submit_world (req : request) (w : world) :
  network_log (snd (submit server req w)) = network_log w ++ [req]
  /\ clock_reads (snd (submit server req w)) = clock_reads w.
Proof.
  unfold submit, try_except_HTTPError, bind, urlopen, read, decode, print,
    sys_exit, raise, ret.
  destruct (server req) as [code [raw|] | why];
    cbn [of_option ret raise status content stdout network_log clock_reads snd];
    repeat (match goal with
            | |- context [if ?b then _ else _] => destruct b
            | |- context [of_option _ (decode_utf8 ?r)] =>
                destruct (decode_utf8 r)
            end;
            cbn [of_option ret raise status content stdout network_log
                   clock_reads snd negb]);
    auto.
Qed.

Lemma run_final :
  final (run rt environ clock server)
  = snd (main rt environ clock server init_world).
Proof.
  unfold run. destruct (main rt environ clock server init_world).
  reflexivity.
Qed.

Lemma run_exit_code :
  exit_code (run rt environ clock server)
  = exit_status (fst (main rt environ clock server init_world)).
Proof.
  unfold run. destruct (main rt environ clock server init_world).
  reflexivity.
Qed.

Lemma run_traceback :
  traceback (run rt environ clock server)
  = uncaught (fst (main rt environ clock server init_world)).
Proof.
  unfold run. destruct (main rt environ clock server init_world).
  reflexivity.
Qed.

(** The requests of a run: none, or the one built from the resolved
    inputs and the first clock reading, after which the clock is not
    read again. *)
Lemma run_requests (req : request) :
  In req (network_log (final (run rt environ clock server))) ->
  exists version signature file_size api_token,
    resolved rt environ version signature file_size api_token
    /\ req = request_for rt environ (clock 0%nat) version signature
               file_size api_token
    /\ network_log (final (run rt environ clock server)) = [req]
    /\ clock_reads (final (run rt environ clock server)) = 1%nat.
Proof.
  rewrite run_final.
  destruct main_cases as [(e & _ & He) | (version & signature & file_size
                                         & api_token & Hres)].
  - rewrite He. intros [].
  - rewrite (main_resolved _ _ _ _ Hres).
    destruct (submit_world
                (request_for rt environ (clock 0%nat) version signature
                   file_size api_token) w1) as [Hlog Hclk].
    rewrite Hlog, Hclk. cbn. intros [<- | []].
    exists version, signature, file_size, api_token. auto.
Qed.
End RunFacts.

(** ** The outcomes of [submit] *)

Section SubmitFacts.
Variable server : request -> exchange.

(** The lines printed for a response whose body decodes. *)
Definition report (code : Z) (body : list N) : list (list N) :=
  [ py "HTTP Status: " ++ str_int code;
    py "Response: " ++ body;
    if (code =? 201)%Z then success_marker else failure_marker ].

Lemma submit_decoded req w code raw body :
  server req = Reply code (Body raw) ->
  decode_utf8 raw = Some body ->
  submit server req w
  = (if (code =? 201)%Z then Ok tt else Raise (SystemExit 1),
     {| stdout := stdout w ++ report code body;
        network_log := network_log w ++ [req];
        clock_reads := clock_reads w |}).
Proof.
  intros Hsrv Hdec.
  unfold submit, try_except_HTTPError, bind, urlopen, read, decode, print,
    sys_exit, raise, ret, report.
  rewrite Hsrv.
  destruct ((200 <=? code)%Z && (code <? 300)%Z) eqn:Hrange;
    cbn [status content of_option ret raise stdout network_log clock_reads];
    rewrite Hdec;
    cbn [status content of_option ret raise stdout network_log clock_reads].
  - destruct (code =? 201)%Z;
      cbn [negb stdout network_log clock_reads];
      rewrite <- !app_assoc; reflexivity.
  - destruct (Z.eqb_spec code 201) as [-> | _]; [discriminate Hrange |].
    rewrite <- !app_assoc. reflexivity.
Qed.

Lemma submit_no_reply req w why :
  server req = NoReply why ->
  submit server req w
  = (Raise (URLError why),
     {| stdout := stdout w;
        network_log := network_log w ++ [req];
        clock_reads := clock_reads w |}).
Proof.
  intros Hsrv. unfold submit, try_except_HTTPError, bind, urlopen.
  rewrite Hsrv. reflexivity.
Qed.

(** A status other than 201 never ends well, whatever the body. *)
Lemma submit_other_status req w code answer :
  server req = Reply code answer ->
  code <> 201%Z ->
  exit_status (fst (submit server req w)) = 1%Z.
Proof.
  intros Hsrv Hcode.
  unfold submit, try_except_HTTPError, bind, urlopen, read, decode, print,
    sys_exit, raise, ret.
  rewrite Hsrv.
  destruct ((200 <=? code)%Z && (code <? 300)%Z);
    destruct answer as [raw|];
    cbn [status content of_option ret raise fst exit_status];
    try reflexivity;
    destruct (decode_utf8 raw);
    cbn [status content of_option ret raise fst exit_status];
    try reflexivity.
  destruct (Z.eqb_spec code 201) as [-> | _]; [congruence | reflexivity].
Qed.
End SubmitFacts.

(** ** Sample surroundings *)

(** An interpreter whose tables hold nothing beyond ASCII. *)
Definition ascii_runtime : runtime :=
  {| rt_decimal := fun _ => None;
     rt_isspace := fun _ => false;
     rt_max_str_digits := 4300;
     rt_year_zero_fill := false |}.

(** The environment of a release job, with the two optional variables
    unset. *)
Definition release_environ (version file_size : string)
  : gmap (list N) (list N) :=
  <[py "VERSION" := py version]>
    (<[py "SPARKLE_SIGNATURE" := py "MEUCIQDsig=="]>
       (<[py "FILE_SIZE" := py file_size]>
          (<[py "INTERNAL_API_TOKEN" := py "s3cr3t"]> ∅))).

Definition noon (n : nat) : datetime :=
  {| year := 2024; month := 5; day := 6;
     hour := 12; minute := 0; second := 9 |}.

Definition created (_ : request) : exchange := Reply 201 (Body (py "{}")).
Definition db_down (_ : request) : exchange := Reply 500 (Body (py "db down")).
Definition garbled (_ : request) : exchange := Reply 201 (Body [255%N]).
Definition unreachable (_ : request) : exchange := NoReply DNSFailed.

(** The request of the sample job. *)
Definition sample_request (version : string) (file_size : Z) : request :=
  request_for ascii_runtime (release_environ version "1024") (noon 0)
    (py version) (py "MEUCIQDsig==") file_size (py "s3cr3t").

(** ** Exit codes *)

(** C1, as the spec has it, fails: a response with status 201 whose body is
    not valid UTF-8 ends the process with exit code 1, on the uncaught
    [UnicodeDecodeError] of line 46, with nothing printed. *)
Lemma exit_code_201_undecodable :
  let p := run ascii_runtime (release_environ "1.2.3" "1024") noon garbled in
  In (sample_request "1.2.3" 1024) (network_log (final p))
  /\ garbled (sample_request "1.2.3" 1024) = Reply 201 (Body [255%N])
  /\ exit_code p = 1%Z
  /\ traceback p = Some UnicodeDecodeError
  /\ stdout (final p) = []
  /\ ~ (exit_code p = 0%Z <-> 201%Z = 201%Z).
Proof.
  cbv zeta. repeat apply conj.
  - vm_compute. left. reflexivity.
  - reflexivity.
  - vm_compute. reflexivity.
  - vm_compute. reflexivity.
  - vm_compute. reflexivity.
  - vm_compute. intros [_ H]. specialize (H eq_refl). discriminate H.
Qed.

(** C1, amended: in every run in which a response is received, any status
    other than 201 gives exit code 1; and when the body is read to its end
    and is valid UTF-8, the exit code is 0 exactly when the status is 201,
    and the process prints the status, the body and the marker line. *)
Theorem exit_code_by_status rt environ clock server req code answer :
  In req (network_log (final (run rt environ clock server))) ->
  server req = Reply code answer ->
  let p := run rt environ clock server in
  (code <> 201%Z -> exit_code p = 1%Z)
  /\ (forall raw body,
        answer = Body raw -> decode_utf8 raw = Some body ->
        (exit_code p = 0%Z <-> code = 201%Z)
        /\ stdout (final p) = report code body).
Proof.
  intros Hin Hsrv p. subst p.
  destruct (run_requests _ _ _ _ _ Hin)
    as (version & signature & file_size & api_token & Hres & -> & _ & _).
  rewrite run_exit_code, run_final, (main_resolved _ _ _ _ _ _ _ _ Hres).
  split.
  - intros Hcode. eapply submit_other_status; eassumption.
  - intros raw body -> Hdec.
    rewrite (submit_decoded _ _ _ _ _ _ Hsrv Hdec). cbn [fst snd stdout app].
    split; [| reflexivity].
    destruct (Z.eqb_spec code 201) as [-> | Hne]; cbn [exit_status].
    + tauto.
    + split; [discriminate | contradiction].
Qed.

Lemma exit_code_by_status_witness :
  let p := run ascii_runtime (release_environ "1.2.3" "1024") noon db_down in
  In (sample_request "1.2.3" 1024) (network_log (final p))
  /\ exit_code p = 1%Z
  /\ ~ exit_code p = 0%Z
  /\ stdout (final p) = report 500 (py "db down").
Proof.
  cbv zeta.
  assert (Hin : In (sample_request "1.2.3" 1024)
                  (network_log
                     (final (run ascii_runtime (release_environ "1.2.3" "1024")
                               noon db_down))))
    by (vm_compute; left; reflexivity).
  destruct (exit_code_by_status ascii_runtime (release_environ "1.2.3" "1024")
              noon db_down (sample_request "1.2.3" 1024) 500
              (Body (py "db down")) Hin eq_refl) as [Hone Hbody].
  destruct (Hbody (py "db down") (py "db down") eq_refl eq_refl) as [Hiff Hout].
  repeat apply conj.
  - exact Hin.
  - apply Hone. discriminate.
  - intros H0. apply Hiff in H0. discriminate H0.
  - exact Hout.
Defined.

(** ** The channel *)

(** C2: the channel field of the payload is [channel version], which is
    "beta" exactly when "beta" occurs in the version and "stable" exactly
    when it does not. *)
Theorem channel_beta_iff
    version release_notes github_repo signature file_size published_at :
  dict_get (py "channel")
    (payload version release_notes github_repo signature file_size
       published_at)
  = Some (JStr (channel version))
  /\ (channel version = py "beta"
      <-> exists pre post, version = pre ++ py "beta" ++ post)
  /\ (channel version = py "stable"
      <-> ~ exists pre post, version = pre ++ py "beta" ++ post).
Proof.
  split; [reflexivity |].
  unfold channel. rewrite <- contains_spec.
  destruct (contains (py "beta") version); split; split;
    try discriminate; try reflexivity; congruence.
Qed.

(** The test is case-sensitive and looks anywhere in the version. *)
Example channel_samples :
  map channel [py "1.2.3"; py "1.2.3-beta.1"; py "beta"; py "2.0-BETA";
               py "3.0-Beta2"; py "0.9.betamax"]
  = [py "stable"; py "beta"; py "beta"; py "stable"; py "stable"; py "beta"].
Proof. reflexivity. Qed.

(** ** Configuration errors *)

(** C3: when a required variable is unset, or FILE_SIZE is set to what
    [int] rejects, the run ends on that [KeyError] or [ValueError] with
    exit code 1, having sent no request, read no clock and printed
    nothing. *)
Theorem config_error_before_network rt environ clock server :
  (environ !! py "VERSION" = None
   \/ environ !! py "SPARKLE_SIGNATURE" = None
   \/ environ !! py "FILE_SIZE" = None
   \/ environ !! py "INTERNAL_API_TOKEN" = None
   \/ exists v, environ !! py "FILE_SIZE" = Some v /\ py_int rt v = None) ->
  let p := run rt environ clock server in
  exists e,
    traceback p = Some e /\ is_config_error e /\ exit_code p = 1%Z
    /\ network_log (final p) = []
    /\ clock_reads (final p) = 0%nat
    /\ stdout (final p) = [].
Proof.
  intros Hbad p. subst p.
  destruct (main_cases rt environ clock server)
    as [(e & Hcfg & He) | (version & signature & file_size & api_token
                           & Hv & Hs & (v & Hf & Hi) & Ht)].
  - exists e. rewrite run_traceback, run_exit_code, run_final, He.
    destruct e; try contradiction; cbn; auto 10.
  - exfalso.
    destruct Hbad as [H | [H | [H | [H | (v' & Hf' & Hi')]]]]; congruence.
Qed.

Lemma config_error_before_network_witness :
  let environ := release_environ "1.2.3" "notanumber" in
  let p := run ascii_runtime environ noon created in
  (exists v, environ !! py "FILE_SIZE" = Some v
             /\ py_int ascii_runtime v = None)
  /\ exists e,
      traceback p = Some e /\ is_config_error e /\ exit_code p = 1%Z
      /\ network_log (final p) = []
      /\ clock_reads (final p) = 0%nat
      /\ stdout (final p) = [].
Proof.
  cbv zeta.
  assert (Hbad : exists v,
             release_environ "1.2.3" "notanumber" !! py "FILE_SIZE" = Some v
             /\ py_int ascii_runtime v = None).
  { exists (py "notanumber"). split; vm_compute; reflexivity. }
  split; [exact Hbad |].
  apply (config_error_before_network ascii_runtime
           (release_environ "1.2.3" "notanumber") noon created).
  right; right; right; right. exact Hbad.
Defined.

(** ** Transport failures *)

(** C4: when the request meets a transport failure, the process ends with
    exit code 1 and the traceback of the [URLError] that carries the
    reason, and prints nothing on standard output. *)
Theorem transport_failure_exit rt environ clock server req why :
  In req (network_log (final (run rt environ clock server))) ->
  server req = NoReply why ->
  let p := run rt environ clock server in
  exit_code p = 1%Z
  /\ traceback p = Some (URLError why)
  /\ stdout (final p) = [].
Proof.
  intros Hin Hsrv p. subst p.
  destruct (run_requests _ _ _ _ _ Hin)
    as (version & signature & file_size & api_token & Hres & -> & _ & _).
  rewrite run_exit_code, run_traceback, run_final,
    (main_resolved _ _ _ _ _ _ _ _ Hres), (submit_no_reply _ _ _ _ Hsrv).
  cbn. auto.
Qed.

Lemma transport_failure_exit_witness :
  let p :=
    run ascii_runtime (release_environ "1.2.3" "1024") noon unreachable in
  In (sample_request "1.2.3" 1024) (network_log (final p))
  /\ exit_code p = 1%Z
  /\ traceback p = Some (URLError DNSFailed)
  /\ stdout (final p) = [].
Proof.
  cbv zeta.
  assert (Hin : In (sample_request "1.2.3" 1024)
                  (network_log
                     (final (run ascii_runtime (release_environ "1.2.3" "1024")
                               noon unreachable))))
    by (vm_compute; left; reflexivity).
  split; [exact Hin |].
  exact (transport_failure_exit ascii_runtime (release_environ "1.2.3" "1024")
           noon unreachable (sample_request "1.2.3" 1024) DNSFailed Hin eq_refl).
Defined.

(** ** The fields of the payload *)

(** C5: the payload sent by a run has as download_url the template
    filled with the resolved GITHUB_REPOSITORY and, twice, with VERSION. *)
Theorem download_url_template rt environ clock server req :
  In req (network_log (final (run rt environ clock server))) ->
  exists version release_notes signature file_size published_at,
    let repo :=
      match environ !! py "GITHUB_REPOSITORY" with
      | Some v => v
      | None => py "foxwise-ai/TheQuickFox"
      end in
    let record :=
      payload version release_notes repo signature file_size published_at in
    environ !! py "VERSION" = Some version
    /\ encode_utf8 (json_dumps record) = Some (req_data req)
    /\ dict_get (py "download_url") record
       = Some (JStr (py "https://github.com/" ++ repo
                     ++ py "/releases/download/v" ++ version
                     ++ py "/TheQuickFox-" ++ version ++ py ".zip")).
Proof.
  intros Hin.
  destruct (run_requests _ _ _ _ _ Hin)
    as (version & signature & file_size & api_token & Hres & -> & _ & _).
  exists version, (environ_get environ (py "RELEASE_NOTES") (py "")),
    signature, file_size, (strftime rt (clock 0%nat)).
  cbv zeta. split; [apply Hres |]. split.
  - apply encode_json_dumps.
  - reflexivity.
Qed.

Lemma download_url_template_witness :
  let p := run ascii_runtime (release_environ "1.2.3-beta.1" "1024") noon
             created in
  In (sample_request "1.2.3-beta.1" 1024) (network_log (final p))
  /\ exists version release_notes signature file_size published_at,
      let record :=
        payload version release_notes (py "foxwise-ai/TheQuickFox") signature
          file_size published_at in
      version = py "1.2.3-beta.1"
      /\ encode_utf8 (json_dumps record)
         = Some (req_data (sample_request "1.2.3-beta.1" 1024))
      /\ dict_get (py "download_url") record
         = Some (JStr (py "https://github.com/foxwise-ai/TheQuickFox/releases/download/v1.2.3-beta.1/TheQuickFox-1.2.3-beta.1.zip")).
Proof.
  cbv zeta.
  assert (Hin : In (sample_request "1.2.3-beta.1" 1024)
                  (network_log
                     (final (run ascii_runtime
                               (release_environ "1.2.3-beta.1" "1024")
                               noon created))))
    by (vm_compute; left; reflexivity).
  split; [exact Hin |].
  destruct (download_url_template ascii_runtime
              (release_environ "1.2.3-beta.1" "1024") noon created
              (sample_request "1.2.3-beta.1" 1024) Hin)
    as (version & release_notes & signature & file_size & published_at
        & Hv & Hdata & Hurl).
  exists version, release_notes, signature, file_size, published_at.
  assert (Hversion : version = py "1.2.3-beta.1").
  { vm_compute in Hv. injection Hv as <-. reflexivity. }
  subst version. repeat apply conj.
  - reflexivity.
  - exact Hdata.
  - exact Hurl.
Defined.

(** C6: in the payload sent by a run, build_number and version hold the
    same string, the value of VERSION. *)
Theorem build_number_is_version rt environ clock server req :
  In req (network_log (final (run rt environ clock server))) ->
  exists version release_notes github_repo signature file_size published_at,
    let record :=
      payload version release_notes github_repo signature file_size
        published_at in
    environ !! py "VERSION" = Some version
    /\ encode_utf8 (json_dumps record) = Some (req_data req)
    /\ dict_get (py "version") record = Some (JStr version)
    /\ dict_get (py "build_number") record = dict_get (py "version") record.
Proof.
  intros Hin.
  destruct (run_requests _ _ _ _ _ Hin)
    as (version & signature & file_size & api_token & Hres & -> & _ & _).
  exists version, (environ_get environ (py "RELEASE_NOTES") (py "")),
    (environ_get environ (py "GITHUB_REPOSITORY")
       (py "foxwise-ai/TheQuickFox")),
    signature, file_size, (strftime rt (clock 0%nat)).
  cbv zeta. split; [apply Hres |]. split.
  - apply encode_json_dumps.
  - split; reflexivity.
Qed.

Lemma build_number_is_version_witness :
  let p := run ascii_runtime (release_environ "1.2.3" "1024") noon created in
  In (sample_request "1.2.3" 1024) (network_log (final p))
  /\ exists version release_notes github_repo signature file_size published_at,
      let record :=
        payload version release_notes github_repo signature file_size
          published_at in
      release_environ "1.2.3" "1024" !! py "VERSION" = Some version
      /\ encode_utf8 (json_dumps record)
         = Some (req_data (sample_request "1.2.3" 1024))
      /\ dict_get (py "version") record = Some (JStr version)
      /\ dict_get (py "build_number") record = dict_get (py "version") record.
Proof.
  cbv zeta.
  assert (Hin : In (sample_request "1.2.3" 1024)
                  (network_log
                     (final (run ascii_runtime (release_environ "1.2.3" "1024")
                               noon created))))
    by (vm_compute; left; reflexivity).
  split; [exact Hin |].
  exact (build_number_is_version ascii_runtime (release_environ "1.2.3" "1024")
           noon created (sample_request "1.2.3" 1024) Hin).
Defined.

(** C8: the payload sent by a run has as release_notes the value of
    RELEASE_NOTES, or the empty string when it is unset, and builds its
    download_url on the value of GITHUB_REPOSITORY, or on
    "foxwise-ai/TheQuickFox" when it is unset. *)
Theorem optional_defaults rt environ clock server req :
  In req (network_log (final (run rt environ clock server))) ->
  exists version release_notes github_repo signature file_size published_at,
    let record :=
      payload version release_notes github_repo signature file_size
        published_at in
    encode_utf8 (json_dumps record) = Some (req_data req)
    /\ dict_get (py "release_notes") record = Some (JStr release_notes)
    /\ dict_get (py "download_url") record
       = Some (JStr (download_url github_repo version))
    /\ (environ !! py "RELEASE_NOTES" = None -> release_notes = [])
    /\ (forall v, environ !! py "RELEASE_NOTES" = Some v -> release_notes = v)
    /\ (environ !! py "GITHUB_REPOSITORY" = None ->
        github_repo = py "foxwise-ai/TheQuickFox")
    /\ (forall v,
          environ !! py "GITHUB_REPOSITORY" = Some v -> github_repo = v).
Proof.
  intros Hin.
  destruct (run_requests _ _ _ _ _ Hin)
    as (version & signature & file_size & api_token & Hres & -> & _ & _).
  exists version, (environ_get environ (py "RELEASE_NOTES") (py "")),
    (environ_get environ (py "GITHUB_REPOSITORY")
       (py "foxwise-ai/TheQuickFox")),
    signature, file_size, (strftime rt (clock 0%nat)).
  cbv zeta. split; [apply encode_json_dumps |].
  split; [reflexivity |]. split; [reflexivity |].
  unfold environ_get.
  destruct (environ !! py "RELEASE_NOTES");
    destruct (environ !! py "GITHUB_REPOSITORY");
    repeat apply conj; intros; first [reflexivity | congruence].
Qed.

Lemma optional_defaults_witness :
  let environ :=
    <[py "RELEASE_NOTES" := py "Fixes"]> (release_environ "1.2.3" "1024") in
  let p := run ascii_runtime environ noon created in
  let req :=
    request_for ascii_runtime environ (noon 0) (py "1.2.3")
      (py "MEUCIQDsig==") 1024 (py "s3cr3t") in
  In req (network_log (final p))
  /\ exists version release_notes github_repo signature file_size published_at,
      let record :=
        payload version release_notes github_repo signature file_size
          published_at in
      encode_utf8 (json_dumps record) = Some (req_data req)
      /\ dict_get (py "release_notes") record = Some (JStr (py "Fixes"))
      /\ dict_get (py "download_url") record
         = Some (JStr (download_url (py "foxwise-ai/TheQuickFox") version)).
Proof.
  cbv zeta.
  set (environ :=
         <[py "RELEASE_NOTES" := py "Fixes"]> (release_environ "1.2.3" "1024")).
  set (req := request_for ascii_runtime environ (noon 0) (py "1.2.3")
                (py "MEUCIQDsig==") 1024 (py "s3cr3t")).
  assert (Hin : In req (network_log
                          (final (run ascii_runtime environ noon created))))
    by (vm_compute; left; reflexivity).
  split; [exact Hin |].
  destruct (optional_defaults ascii_runtime environ noon created req Hin)
    as (version & release_notes & github_repo & signature & file_size
        & published_at & Hdata & Hnotes & Hurl & _ & Hset & Hunset & _).
  assert (Hn : release_notes = py "Fixes")
    by (apply Hset; vm_compute; reflexivity).
  assert (Hr : github_repo = py "foxwise-ai/TheQuickFox")
    by (apply Hunset; vm_compute; reflexivity).
  subst release_notes github_repo.
  exists version, (py "Fixes"), (py "foxwise-ai/TheQuickFox"), signature,
    file_size, published_at.
  repeat apply conj; assumption.
Defined.

(** ** The time stamp *)

Definition is_digit (c : N) : bool := ((48 <=? c) && (c <=? 57))%N.

(** The shape YYYY-MM-DDTHH:MM:SSZ. *)
Definition iso8601_utc (s : list N) : bool :=
  match s with
  | [y1; y2; y3; y4; a; m1; m2; b; d1; d2; t; h1; h2; c; n1; n2; e; s1; s2; z] =>
      forallb is_digit [y1; y2; y3; y4; m1; m2; d1; d2; h1; h2; n1; n2; s1; s2]
      && (a =? 45)%N && (b =? 45)%N && (t =? 84)%N
      && (c =? 58)%N && (e =? 58)%N && (z =? 90)%N
  | _ => false
  end.

Definition four_digits (y : N) : list N :=
  [48 + y / 1000; 48 + y / 100 mod 10; 48 + y / 10 mod 10; 48 + y mod 10]%N.

(** A reading of a clock that stands in the years 1000 to 9999, with every
    field in its calendar range. *)
Definition calendar_fields (d : datetime) : Prop :=
  (1000 <= year d <= 9999 /\ 1 <= month d <= 12 /\ 1 <= day d <= 31
   /\ hour d < 24 /\ minute d < 60 /\ second d < 60)%N.

Lemma str_int_four_digits (y : N) :
  (1000 <= y <= 9999)%N -> str_int (Z.of_N y) = four_digits y.
Proof.
  intros Hy.
  assert (Hall : forallb
                   (fun n => bool_decide
                               (str_int (Z.of_N (N.of_nat n))
                                = four_digits (N.of_nat n)))
                   (seq (N.to_nat 1000) (N.to_nat 9000)) = true)
    by (vm_compute; reflexivity).
  rewrite forallb_forall in Hall.
  specialize (Hall (N.to_nat y)).
  rewrite N2Nat.id in Hall.
  eapply bool_decide_eq_true. apply Hall. apply in_seq. lia.
Qed.

Lemma year_digits_four rt (y : N) :
  (1000 <= y <= 9999)%N -> year_digits rt y = four_digits y.
Proof.
  intros Hy. unfold year_digits.
  rewrite (str_int_four_digits y Hy).
  destruct (rt_year_zero_fill rt); reflexivity.
Qed.

Lemma is_digit_offset (d : N) : (d < 10)%N -> is_digit (48 + d) = true.
Proof.
  intros Hd. unfold is_digit.
  apply andb_true_intro. split; apply N.leb_le; lia.
Qed.

Lemma strftime_shape rt (d : datetime) :
  calendar_fields d ->
  strftime rt d
  = four_digits (year d) ++ py "-" ++ two_digits (month d) ++ py "-"
    ++ two_digits (day d) ++ py "T" ++ two_digits (hour d) ++ py ":"
    ++ two_digits (minute d) ++ py ":" ++ two_digits (second d) ++ py "Z"
  /\ iso8601_utc (strftime rt d) = true.
Proof.
  intros (Hy & Hm & Hd & Hh & Hmi & Hs).
  unfold strftime. rewrite (year_digits_four rt _ Hy).
  split; [reflexivity |].
  unfold four_digits, two_digits.
  cbn [app py N_of_ascii iso8601_utc forallb].
  assert (Hdiv : forall n, (n < 100)%N -> (n / 10 < 10)%N).
  { intros n Hn. apply N.Div0.div_lt_upper_bound. lia. }
  assert (Hmod : forall n, (n mod 10 < 10)%N).
  { intros n. apply N.mod_lt. lia. }
  rewrite !is_digit_offset;
    try apply Hmod; try (apply Hdiv; lia); [reflexivity |].
  apply N.Div0.div_lt_upper_bound. lia.
Qed.

(** C7: a run that builds a payload reads the clock once in all, its first
    reading, and published_at is that reading written as
    YYYY-MM-DDTHH:MM:SSZ. *)
Theorem published_at_read_once rt environ clock server req :
  In req (network_log (final (run rt environ clock server))) ->
  calendar_fields (clock 0%nat) ->
  let p := run rt environ clock server in
  let now := clock 0%nat in
  clock_reads (final p) = 1%nat
  /\ exists version release_notes github_repo signature file_size published_at,
      let record :=
        payload version release_notes github_repo signature file_size
          published_at in
      encode_utf8 (json_dumps record) = Some (req_data req)
      /\ dict_get (py "published_at") record = Some (JStr published_at)
      /\ published_at
         = four_digits (year now) ++ py "-" ++ two_digits (month now)
           ++ py "-" ++ two_digits (day now) ++ py "T"
           ++ two_digits (hour now) ++ py ":" ++ two_digits (minute now)
           ++ py ":" ++ two_digits (second now) ++ py "Z"
      /\ iso8601_utc published_at = true.
Proof.
  intros Hin Hnow p now. subst p now.
  destruct (run_requests _ _ _ _ _ Hin)
    as (version & signature & file_size & api_token & Hres & -> & _ & Hclk).
  split; [exact Hclk |].
  exists version, (environ_get environ (py "RELEASE_NOTES") (py "")),
    (environ_get environ (py "GITHUB_REPOSITORY")
       (py "foxwise-ai/TheQuickFox")),
    signature, file_size, (strftime rt (clock 0%nat)).
  cbv zeta. split; [apply encode_json_dumps |].
  split; [reflexivity |].
  apply strftime_shape, Hnow.
Qed.

(** A clock that moves on with every reading. *)
Definition ticking (n : nat) : datetime :=
  {| year := 2024; month := 5; day := 6;
     hour := 12; minute := 0; second := 9 + N.of_nat n |}.

Lemma published_at_read_once_witness :
  let environ := release_environ "1.2.3" "1024" in
  let p := run ascii_runtime environ ticking created in
  let req :=
    request_for ascii_runtime environ (ticking 0) (py "1.2.3")
      (py "MEUCIQDsig==") 1024 (py "s3cr3t") in
  In req (network_log (final p))
  /\ calendar_fields (ticking 0)
  /\ clock_reads (final p) = 1%nat
  /\ exists version release_notes github_repo signature file_size,
      encode_utf8
        (json_dumps
           (payload version release_notes github_repo signature file_size
              (py "2024-05-06T12:00:09Z")))
      = Some (req_data req).
Proof.
  cbv zeta.
  set (environ := release_environ "1.2.3" "1024").
  set (req := request_for ascii_runtime environ (ticking 0) (py "1.2.3")
                (py "MEUCIQDsig==") 1024 (py "s3cr3t")).
  assert (Hin : In req (network_log
                          (final (run ascii_runtime environ ticking created))))
    by (vm_compute; left; reflexivity).
  assert (Hnow : calendar_fields (ticking 0))
    by (unfold calendar_fields; cbn; lia).
  destruct (published_at_read_once ascii_runtime environ ticking created req
              Hin Hnow)
    as (Hclk & version & release_notes & github_repo & signature & file_size
        & published_at & Hdata & _ & Hstamp & _).
  split; [exact Hin |]. split; [exact Hnow |]. split; [exact Hclk |].
  exists version, release_notes, github_repo, signature, file_size.
  rewrite Hstamp in Hdata. exact Hdata.
Defined.

(** ** What [int] lets through *)

(** A plain decimal digit string: one digit or more, and nothing else. *)
Definition plain_digits (s : list N) : bool :=
  match s with
  | [] => false
  | _ :: _ => forallb is_digit s
  end.

(** Values of FILE_SIZE that are no plain digit strings, each with the
    integer [int] reads from it. *)
Definition lenient_literals : list (list N * Z) :=
  [ (py " 42 ", 42%Z); (py "-7", (-7)%Z); (py "+3", 3%Z);
    (py "1_000", 1000%Z) ].

Lemma submit_never_config_error server req w e :
  uncaught (fst (submit server req w)) = Some e -> ~ is_config_error e.
Proof.
  unfold submit, try_except_HTTPError, bind, urlopen, read, decode, print,
    sys_exit, raise, ret.
  destruct (server req) as [code [raw|] | why];
    cbn [of_option ret raise status content fst uncaught];
    repeat (match goal with
            | |- context [if ?b then _ else _] => destruct b
            | |- context [of_option _ (decode_utf8 ?r)] =>
                destruct (decode_utf8 r)
            end;
            cbn [of_option ret raise status content fst uncaught negb]);
    intros H; try discriminate H; injection H as <-; cbn; tauto.
Qed.

(** C9: with FILE_SIZE set to one of " 42 ", "-7", "+3" and "1_000", none
    of which is a plain digit string, [int] succeeds, the run raises no
    configuration error and sends its request, and the payload carries
    the integer read, which for "-7" is negative. *)
Theorem file_size_lenient_literals rt environ clock server v n :
  In (v, n) lenient_literals ->
  is_Some (environ !! py "VERSION") ->
  is_Some (environ !! py "SPARKLE_SIGNATURE") ->
  is_Some (environ !! py "INTERNAL_API_TOKEN") ->
  environ !! py "FILE_SIZE" = Some v ->
  let p := run rt environ clock server in
  plain_digits v = false
  /\ py_int rt v = Some n
  /\ (v = py "-7" -> (n < 0)%Z)
  /\ (forall e, traceback p = Some e -> ~ is_config_error e)
  /\ exists req version release_notes github_repo signature published_at,
      let record :=
        payload version release_notes github_repo signature n published_at in
      network_log (final p) = [req]
      /\ encode_utf8 (json_dumps record) = Some (req_data req)
      /\ dict_get (py "file_size") record = Some (JInt n).
Proof.
  intros Hin [version Hv] [signature Hs] [api_token Ht] Hf p. subst p.
  assert (Hint : plain_digits v = false /\ py_int rt v = Some n
                 /\ (v = py "-7" -> (n < 0)%Z)).
  { cbn [lenient_literals In] in Hin.
    destruct Hin as [H | [H | [H | [H | []]]]]; injection H as <- <-;
      (split; [reflexivity |]); (split; [reflexivity |]);
      first [ intros _; lia | intros H; vm_compute in H; discriminate H ]. }
  destruct Hint as (Hplain & Hint & Hneg).
  assert (Hres : resolved rt environ version signature n api_token).
  { unfold resolved. eauto 10. }
  rewrite run_traceback, run_final,
    (main_resolved _ _ clock server _ _ _ _ Hres).
  repeat apply conj; try assumption.
  - intros e. apply submit_never_config_error.
  - exists (request_for rt environ (clock 0%nat) version signature n api_token).
    eexists version, _, _, signature, _. cbv zeta. split.
    + exact (proj1 (submit_world server _ _)).
    + split; [apply encode_json_dumps | reflexivity].
Qed.

Lemma file_size_lenient_literals_witness :
  let environ := release_environ "1.2.3" "-7" in
  let p := run ascii_runtime environ noon created in
  In (py "-7", (-7)%Z) lenient_literals
  /\ environ !! py "FILE_SIZE" = Some (py "-7")
  /\ py_int ascii_runtime (py "-7") = Some (-7)%Z
  /\ exists req version release_notes github_repo signature published_at,
      let record :=
        payload version release_notes github_repo signature (-7) published_at
      in
      network_log (final p) = [req]
      /\ encode_utf8 (json_dumps record) = Some (req_data req)
      /\ dict_get (py "file_size") record = Some (JInt (-7)).
Proof.
  cbv zeta.
  assert (Hin : In (py "-7", (-7)%Z) lenient_literals)
    by (right; left; reflexivity).
  assert (Hf : release_environ "1.2.3" "-7" !! py "FILE_SIZE" = Some (py "-7"))
    by (vm_compute; reflexivity).
  assert (Hv : is_Some (release_environ "1.2.3" "-7" !! py "VERSION"))
    by (exists (py "1.2.3"); vm_compute; reflexivity).
  assert (Hs : is_Some (release_environ "1.2.3" "-7" !! py "SPARKLE_SIGNATURE"))
    by (exists (py "MEUCIQDsig=="); vm_compute; reflexivity).
  assert (Ht : is_Some (release_environ "1.2.3" "-7" !! py "INTERNAL_API_TOKEN"))
    by (exists (py "s3cr3t"); vm_compute; reflexivity).
  pose proof (file_size_lenient_literals ascii_runtime
                (release_environ "1.2.3" "-7") noon created (py "-7") (-7)%Z
                Hin Hv Hs Ht Hf) as H.
  cbv zeta in H. destruct H as (_ & Hint & _ & _ & Hsent).
  split; [exact Hin |]. split; [exact Hf |]. split; [exact Hint |].
  exact Hsent.
Defined.

(** ** Determinism of the request *)

Definition input_vars : list (list N) :=
  required_vars ++ [py "RELEASE_NOTES"; py "GITHUB_REPOSITORY"].

Definition record_fields : list (list N) :=
  [ py "version"; py "build_number"; py "channel"; py "release_notes";
    py "download_url"; py "signature"; py "file_size";
    py "minimum_os_version"; py "is_critical"; py "published_at" ].

(** Two environments that hold the same for each of the given names. *)
Definition agree_on (names : list (list N))
    (environ1 environ2 : gmap (list N) (list N)) : Prop :=
  forall name, In name names -> environ1 !! name = environ2 !! name.

Lemma agree_on_sym (names : list (list N))
    (environ1 environ2 : gmap (list N) (list N)) :
  agree_on names environ1 environ2 -> agree_on names environ2 environ1.
Proof. intros H name Hin. symmetry. apply H, Hin. Qed.

Section Determinism.
Variable rt : runtime.
Variables environ1 environ2 : gmap (list N) (list N).
Hypothesis Hagree : agree_on input_vars environ1 environ2.

Lemma resolved_agree version signature file_size api_token :
  resolved rt environ1 version signature file_size api_token ->
  resolved rt environ2 version signature file_size api_token.
Proof.
  unfold resolved.
  rewrite !(Hagree (py "VERSION")), !(Hagree (py "SPARKLE_SIGNATURE")),
    !(Hagree (py "INTERNAL_API_TOKEN"))
    by (cbn [input_vars required_vars app In]; auto 10).
  intros (Hv & Hs & (v & Hf & Hi) & Ht).
  rewrite (Hagree (py "FILE_SIZE")) in Hf
    by (cbn [input_vars required_vars app In]; auto 10).
  eauto 10.
Qed.

Lemma request_for_agree now version signature file_size api_token :
  request_for rt environ1 now version signature file_size api_token
  = request_for rt environ2 now version signature file_size api_token.
Proof.
  unfold request_for, environ_get.
  rewrite !(Hagree (py "RELEASE_NOTES")), !(Hagree (py "GITHUB_REPOSITORY"))
    by (cbn [input_vars required_vars app In]; auto 10).
  reflexivity.
Qed.
End Determinism.

Lemma resolved_functional rt environ v1 s1 f1 t1 v2 s2 f2 t2 :
  resolved rt environ v1 s1 f1 t1 -> resolved rt environ v2 s2 f2 t2 ->
  v1 = v2 /\ s1 = s2 /\ f1 = f2 /\ t1 = t2.
Proof.
  intros (Hv1 & Hs1 & (x1 & Hf1 & Hi1) & Ht1)
         (Hv2 & Hs2 & (x2 & Hf2 & Hi2) & Ht2).
  assert (x1 = x2) as -> by congruence.
  repeat split; congruence.
Qed.

(** The requests of a run, from its inputs alone. *)
Lemma run_log_cases rt environ clock server :
  (network_log (final (run rt environ clock server)) = []
   /\ forall version signature file_size api_token,
        ~ resolved rt environ version signature file_size api_token)
  \/ exists version signature file_size api_token,
       resolved rt environ version signature file_size api_token
       /\ network_log (final (run rt environ clock server))
          = [request_for rt environ (clock 0%nat) version signature file_size
               api_token].
Proof.
  rewrite run_final.
  destruct (main_cases rt environ clock server)
    as [(e & _ & He) | (version & signature & file_size & api_token & Hres)].
  - left. rewrite He. split; [reflexivity |].
    intros version signature file_size api_token Hres.
    rewrite (main_resolved _ _ _ _ _ _ _ _ Hres) in He.
    pose proof (submit_world server
                  (request_for rt environ (clock 0%nat) version signature
                     file_size api_token)
                  {| stdout := []; network_log := []; clock_reads := 1 |})
      as [Hlog _].
    rewrite He in Hlog. discriminate Hlog.
  - right. exists version, signature, file_size, api_token.
    split; [exact Hres |].
    rewrite (main_resolved _ _ _ _ _ _ _ _ Hres).
    exact (proj1 (submit_world server _ _)).
Qed.

(** C10: two runs whose environments agree on the six input variables and
    whose clocks give the same first reading send the same requests,
    whatever else differs; and every request sent is a POST to the fixed
    URL with the two headers, its body the JSON document of a record with
    exactly the ten fields. *)
Theorem request_deterministic
    rt environ1 environ2 clock1 clock2 server1 server2 :
  agree_on input_vars environ1 environ2 ->
  clock1 0%nat = clock2 0%nat ->
  network_log (final (run rt environ1 clock1 server1))
  = network_log (final (run rt environ2 clock2 server2))
  /\ forall req,
       In req (network_log (final (run rt environ1 clock1 server1))) ->
       req_url req = py "https://api.thequickfox.ai/api/v1/internal/releases"
       /\ req_method req = py "POST"
       /\ (exists api_token,
             environ1 !! py "INTERNAL_API_TOKEN" = Some api_token
             /\ req_headers req
                = [ (py "Authorization", py "Bearer " ++ api_token);
                    (py "Content-Type", py "application/json") ])
       /\ exists record,
            encode_utf8 (json_dumps record) = Some (req_data req)
            /\ map fst record = record_fields.
Proof.
  intros Hagree Hclock. split.
  - destruct (run_log_cases rt environ1 clock1 server1)
      as [[Hlog1 Hno1] | (v1 & s1 & f1 & t1 & Hres1 & Hlog1)];
      destruct (run_log_cases rt environ2 clock2 server2)
        as [[Hlog2 Hno2] | (v2 & s2 & f2 & t2 & Hres2 & Hlog2)].
    + congruence.
    + exfalso. apply (Hno1 v2 s2 f2 t2).
      apply (resolved_agree rt environ2 environ1); [| exact Hres2].
      apply agree_on_sym, Hagree.
    + exfalso. apply (Hno2 v1 s1 f1 t1).
      apply (resolved_agree rt environ1 environ2 Hagree), Hres1.
    + apply (resolved_agree rt environ1 environ2 Hagree) in Hres1.
      destruct (resolved_functional _ _ _ _ _ _ _ _ _ _ Hres1 Hres2)
        as (-> & -> & -> & ->).
      rewrite Hlog1, Hlog2, Hclock,
        (request_for_agree rt environ1 environ2 Hagree).
      reflexivity.
  - intros req Hin.
    destruct (run_requests _ _ _ _ _ Hin)
      as (version & signature & file_size & api_token & Hres & -> & _ & _).
    split; [reflexivity |]. split; [reflexivity |]. split.
    + exists api_token. split; [apply Hres | reflexivity].
    + eexists. split; [apply encode_json_dumps | reflexivity].
Qed.

(** An answering service that rejects every request. *)
Definition forbidden (_ : request) : exchange :=
  Reply 403 (Body (py "forbidden")).

Lemma request_deterministic_witness :
  let environ1 := release_environ "1.2.3" "1024" in
  let environ2 := <[py "HOME" := py "/Users/runner"]> environ1 in
  agree_on input_vars environ1 environ2
  /\ noon 0%nat = ticking 0%nat
  /\ network_log (final (run ascii_runtime environ1 noon created))
     = network_log (final (run ascii_runtime environ2 ticking forbidden)).
Proof.
  cbv zeta.
  assert (Hagree : agree_on input_vars (release_environ "1.2.3" "1024")
                     (<[py "HOME" := py "/Users/runner"]>
                        (release_environ "1.2.3" "1024"))).
  { intros name Hin. cbn [input_vars required_vars app In] in Hin.
    repeat (destruct Hin as [<- | Hin]; [vm_compute; reflexivity |]).
    destruct Hin. }
  split; [exact Hagree |]. split; [reflexivity |].
  apply (request_deterministic ascii_runtime _ _ noon ticking created forbidden
           Hagree eq_refl).
Defined.

(** * Further properties of [main] *)

(** ** The whole of [submit] in one equation *)

(** Lines 46 and 57: the body read to its end and decoded, or the exception
    that reading or decoding raises. *)
Definition body_text (answer : read_result) : result (list N) :=
  match answer with
  | Body raw =>
      match decode_utf8 raw with
      | Some body => Ok body
      | None => Raise UnicodeDecodeError
      end
  | Truncated => Raise IncompleteRead
  end.

(** The state after [submit]: the request logged, the lines printed. *)
Definition submitted (w : world) (req : request) (lines : list (list N))
  : world :=
  {| stdout := stdout w ++ lines;
     network_log := network_log w ++ [req];
     clock_reads := clock_reads w |}.

(** What is printed before a body that cannot be read or decoded stops the
    run: nothing on the path of line 46, the status line on the path of
    line 56. *)
Definition partial_report (code : Z) : list (list N) :=
  if ((200 <=? code) && (code <? 300))%Z then []
  else [py "HTTP Status: " ++ str_int code].

Lemma submit_cases server req w :
  submit server req w
  = match server req with
    | NoReply why => (Raise (URLError why), submitted w req [])
    | Reply code answer =>
        match body_text answer with
        | Ok body =>
            (if (code =? 201)%Z then Ok tt else Raise (SystemExit 1),
             submitted w req (report code body))
        | Raise e => (Raise e, submitted w req (partial_report code))
        end
    end.
Proof.
  destruct (server req) as [code answer | why] eqn:Hsrv.
  - destruct answer as [raw|]; cbn [body_text].
    + destruct (decode_utf8 raw) as [body|] eqn:Hdec.
      * exact (submit_decoded server req w code raw body Hsrv Hdec).
      * unfold submit, try_except_HTTPError, bind, urlopen, read, decode,
          print, sys_exit, raise, ret, submitted, partial_report.
        rewrite Hsrv.
        destruct ((200 <=? code)%Z && (code <? 300)%Z);
          cbn [status content of_option ret raise stdout network_log
                 clock_reads];
          rewrite Hdec; cbn [of_option raise]; rewrite ?app_nil_r;
          reflexivity.
    + unfold submit, try_except_HTTPError, bind, urlopen, read, decode,
        print, sys_exit, raise, ret, submitted, partial_report.
      rewrite Hsrv.
      destruct ((200 <=? code)%Z && (code <? 300)%Z);
        cbn [status content of_option ret raise stdout network_log
               clock_reads];
        rewrite ?app_nil_r; reflexivity.
  - unfold submitted. rewrite app_nil_r. apply submit_no_reply, Hsrv.
Qed.

Lemma body_text_raises answer e :
  body_text answer = Raise e -> e = UnicodeDecodeError \/ e = IncompleteRead.
Proof.
  destruct answer as [raw|]; cbn [body_text].
  - destruct (decode_utf8 raw); [discriminate |].
    intros H. injection H as <-. left. reflexivity.
  - intros H. injection H as <-. right. reflexivity.
Qed.


(** ** Requests and exit codes of every run *)



(** X3: the inputs are checked in the order of lines 11 to 17, and the
    first check that fails names the error: VERSION, then
    SPARKLE_SIGNATURE, then FILE_SIZE being set, then FILE_SIZE being an
    integer, and only then INTERNAL_API_TOKEN. *)
Theorem config_errors_in_order rt environ clock server :
  let p := run rt environ clock server in
  (environ !! py "VERSION" = None ->
   traceback p = Some (KeyError (py "VERSION")))
  /\ (is_Some (environ !! py "VERSION") ->
      environ !! py "SPARKLE_SIGNATURE" = None ->
      traceback p = Some (KeyError (py "SPARKLE_SIGNATURE")))
  /\ (is_Some (environ !! py "VERSION") ->
      is_Some (environ !! py "SPARKLE_SIGNATURE") ->
      environ !! py "FILE_SIZE" = None ->
      traceback p = Some (KeyError (py "FILE_SIZE")))
  /\ (is_Some (environ !! py "VERSION") ->
      is_Some (environ !! py "SPARKLE_SIGNATURE") ->
      (exists v, environ !! py "FILE_SIZE" = Some v /\ py_int rt v = None) ->
      traceback p = Some ValueError)
  /\ (is_Some (environ !! py "VERSION") ->
      is_Some (environ !! py "SPARKLE_SIGNATURE") ->
      (exists v, environ !! py "FILE_SIZE" = Some v
                 /\ is_Some (py_int rt v)) ->
      environ !! py "INTERNAL_API_TOKEN" = None ->
      traceback p = Some (KeyError (py "INTERNAL_API_TOKEN"))).
Proof.
  cbv zeta. rewrite run_traceback.
  unfold main, bind, environ_getitem, int.
  repeat apply conj.
  - intros ->. reflexivity.
  - intros [version ->] ->. reflexivity.
  - intros [version ->] [signature ->] ->. reflexivity.
  - intros [version ->] [signature ->] (v & -> & Hi).
    cbn [of_option ret]. rewrite Hi. reflexivity.
  - intros [version ->] [signature ->] (v & -> & [n Hi]) ->.
    cbn [of_option ret]. rewrite Hi. reflexivity.
Qed.

(** ** What is printed *)

(** X4: when the body of a response cannot be read to its end or is not
    valid UTF-8, the process ends with exit code 1 on that exception,
    having printed nothing for a status from 200 to 299 and the status
    line alone for any other status. *)
Theorem broken_body_output rt environ clock server req code answer e :
  In req (network_log (final (run rt environ clock server))) ->
  server req = Reply code answer ->
  body_text answer = Raise e ->
  let p := run rt environ clock server in
  exit_code p = 1%Z
  /\ traceback p = Some e
  /\ (e = UnicodeDecodeError \/ e = IncompleteRead)
  /\ stdout (final p)
     = if ((200 <=? code) && (code <? 300))%Z then []
       else [py "HTTP Status: " ++ str_int code].
Proof.
  intros Hin Hsrv Hbody p. subst p.
  destruct (run_requests _ _ _ _ _ Hin)
    as (version & signature & file_size & api_token & Hres & -> & _ & _).
  rewrite run_exit_code, run_traceback, run_final,
    (main_resolved _ _ _ _ _ _ _ _ Hres), submit_cases, Hsrv, Hbody.
  pose proof (body_text_raises _ _ Hbody) as He.
  destruct He as [-> | ->]; cbn; auto.
Qed.

(** A server whose error page is cut off. *)
Definition cut_off (_ : request) : exchange := Reply 502 Truncated.

Lemma broken_body_output_witness :
  let p := run ascii_runtime (release_environ "1.2.3" "1024") noon cut_off in
  In (sample_request "1.2.3" 1024) (network_log (final p))
  /\ exit_code p = 1%Z
  /\ traceback p = Some IncompleteRead
  /\ stdout (final p) = [py "HTTP Status: 502"].
Proof.
  cbv zeta.
  assert (Hin : In (sample_request "1.2.3" 1024)
                  (network_log
                     (final (run ascii_runtime (release_environ "1.2.3" "1024")
                               noon cut_off))))
    by (vm_compute; left; reflexivity).
  pose proof (broken_body_output ascii_runtime
                (release_environ "1.2.3" "1024") noon cut_off
                (sample_request "1.2.3" 1024) 502 Truncated IncompleteRead
                Hin eq_refl eq_refl) as H.
  cbv zeta in H. destruct H as (Hexit & Htrace & _ & Hout).
  split; [exact Hin |]. split; [exact Hexit |]. split; [exact Htrace |].
  exact Hout.
Defined.

(** X5: what a run that sends its request prints, its exit code and its
    traceback follow from the server's answer alone: two runs whose
    requests get the same answer end alike, whatever their environments,
    clocks and requests. *)
Theorem outcome_from_answer_alone
    rt1 rt2 environ1 environ2 clock1 clock2 server1 server2 req1 req2 :
  In req1 (network_log (final (run rt1 environ1 clock1 server1))) ->
  In req2 (network_log (final (run rt2 environ2 clock2 server2))) ->
  server1 req1 = server2 req2 ->
  let p1 := run rt1 environ1 clock1 server1 in
  let p2 := run rt2 environ2 clock2 server2 in
  stdout (final p1) = stdout (final p2)
  /\ exit_code p1 = exit_code p2
  /\ traceback p1 = traceback p2.
Proof.
  intros Hin1 Hin2 Hsame p1 p2. subst p1 p2.
  destruct (run_requests _ _ _ _ _ Hin1)
    as (v1 & s1 & f1 & t1 & Hres1 & -> & _ & _).
  destruct (run_requests _ _ _ _ _ Hin2)
    as (v2 & s2 & f2 & t2 & Hres2 & -> & _ & _).
  rewrite !run_exit_code, !run_traceback, !run_final,
    (main_resolved _ _ _ _ _ _ _ _ Hres1),
    (main_resolved _ _ _ _ _ _ _ _ Hres2), !submit_cases, Hsame.
  destruct (server2 _) as [code answer | why]; [| cbn; auto].
  destruct (body_text answer); cbn; auto.
Qed.

Lemma outcome_from_answer_alone_witness :
  let p1 := run ascii_runtime (release_environ "1.2.3" "1024") noon db_down in
  let p2 :=
    run ascii_runtime (release_environ "2.0.0-beta.2" "1024") noon db_down in
  In (sample_request "1.2.3" 1024) (network_log (final p1))
  /\ In (sample_request "2.0.0-beta.2" 1024) (network_log (final p2))
  /\ sample_request "1.2.3" 1024 <> sample_request "2.0.0-beta.2" 1024
  /\ stdout (final p1) = stdout (final p2)
  /\ exit_code p1 = exit_code p2
  /\ traceback p1 = traceback p2.
Proof.
  cbv zeta.
  assert (Hin1 : In (sample_request "1.2.3" 1024)
                   (network_log
                      (final (run ascii_runtime
                                (release_environ "1.2.3" "1024")
                                noon db_down))))
    by (vm_compute; left; reflexivity).
  assert (Hin2 : In (sample_request "2.0.0-beta.2" 1024)
                   (network_log
                      (final (run ascii_runtime
                                (release_environ "2.0.0-beta.2" "1024")
                                noon db_down))))
    by (vm_compute; left; reflexivity).
  split; [exact Hin1 |]. split; [exact Hin2 |]. split.
  - intros H. apply (f_equal req_data) in H. vm_compute in H. discriminate H.
  - exact (outcome_from_answer_alone ascii_runtime ascii_runtime
             (release_environ "1.2.3" "1024")
             (release_environ "2.0.0-beta.2" "1024") noon noon db_down db_down
             (sample_request "1.2.3" 1024) (sample_request "2.0.0-beta.2" 1024)
             Hin1 Hin2 eq_refl).
Defined.

(** ** Where the token goes *)

(** The variables the payload is built from. *)
Definition payload_vars : list (list N) :=
  [py "VERSION"; py "RELEASE_NOTES"; py "GITHUB_REPOSITORY";
   py "SPARKLE_SIGNATURE"; py "FILE_SIZE"].

(** X6: INTERNAL_API_TOKEN reaches the request through the Authorization
    header only: two runs whose environments agree on the five other input
    variables and whose clocks give the same first reading send the same
    body to the same URL with the same method, whatever their tokens. *)
Theorem token_only_in_header
    rt environ1 environ2 clock1 clock2 server1 server2 req1 req2 :
  agree_on payload_vars environ1 environ2 ->
  clock1 0%nat = clock2 0%nat ->
  In req1 (network_log (final (run rt environ1 clock1 server1))) ->
  In req2 (network_log (final (run rt environ2 clock2 server2))) ->
  req_data req1 = req_data req2
  /\ req_url req1 = req_url req2
  /\ req_method req1 = req_method req2
  /\ exists token1 token2,
       environ1 !! py "INTERNAL_API_TOKEN" = Some token1
       /\ environ2 !! py "INTERNAL_API_TOKEN" = Some token2
       /\ req_headers req1
          = [ (py "Authorization", py "Bearer " ++ token1);
              (py "Content-Type", py "application/json") ]
       /\ req_headers req2
          = [ (py "Authorization", py "Bearer " ++ token2);
              (py "Content-Type", py "application/json") ].
Proof.
  intros Hagree Hclock Hin1 Hin2.
  destruct (run_requests _ _ _ _ _ Hin1)
    as (v1 & s1 & f1 & t1 & (Hv1 & Hs1 & (x1 & Hf1 & Hi1) & Ht1) & -> & _ & _).
  destruct (run_requests _ _ _ _ _ Hin2)
    as (v2 & s2 & f2 & t2 & (Hv2 & Hs2 & (x2 & Hf2 & Hi2) & Ht2) & -> & _ & _).
  rewrite (Hagree (py "VERSION")) in Hv1 by (cbn; auto 10).
  rewrite (Hagree (py "SPARKLE_SIGNATURE")) in Hs1 by (cbn; auto 10).
  rewrite (Hagree (py "FILE_SIZE")) in Hf1 by (cbn; auto 10).
  assert (v1 = v2) as -> by congruence.
  assert (s1 = s2) as -> by congruence.
  assert (x1 = x2) as -> by congruence.
  assert (f1 = f2) as -> by congruence.
  split.
  - unfold request_for, environ_get; cbn [req_data].
    rewrite (Hagree (py "RELEASE_NOTES")) by (cbn; auto 10).
    rewrite (Hagree (py "GITHUB_REPOSITORY")) by (cbn; auto 10).
    rewrite Hclock. reflexivity.
  - split; [reflexivity |]. split; [reflexivity |].
    exists t1, t2. auto.
Qed.

Lemma token_only_in_header_witness :
  let environ1 := release_environ "1.2.3" "1024" in
  let environ2 := <[py "INTERNAL_API_TOKEN" := py "rotated"]> environ1 in
  let req1 := sample_request "1.2.3" 1024 in
  let req2 :=
    request_for ascii_runtime environ2 (noon 0) (py "1.2.3")
      (py "MEUCIQDsig==") 1024 (py "rotated") in
  agree_on payload_vars environ1 environ2
  /\ In req1 (network_log (final (run ascii_runtime environ1 noon created)))
  /\ In req2 (network_log (final (run ascii_runtime environ2 noon db_down)))
  /\ req_headers req1 <> req_headers req2
  /\ req_data req1 = req_data req2.
Proof.
  cbv zeta.
  set (environ1 := release_environ "1.2.3" "1024").
  set (environ2 := <[py "INTERNAL_API_TOKEN" := py "rotated"]> environ1).
  set (req2 := request_for ascii_runtime environ2 (noon 0) (py "1.2.3")
                 (py "MEUCIQDsig==") 1024 (py "rotated")).
  assert (Hagree : agree_on payload_vars environ1 environ2).
  { intros name Hin. cbn [payload_vars In] in Hin.
    repeat (destruct Hin as [<- | Hin]; [vm_compute; reflexivity |]).
    destruct Hin. }
  assert (Hin1 : In (sample_request "1.2.3" 1024)
                   (network_log
                      (final (run ascii_runtime environ1 noon created))))
    by (vm_compute; left; reflexivity).
  assert (Hin2 : In req2
                   (network_log
                      (final (run ascii_runtime environ2 noon db_down))))
    by (vm_compute; left; reflexivity).
  split; [exact Hagree |]. split; [exact Hin1 |]. split; [exact Hin2 |].
  split.
  - intros H. vm_compute in H. discriminate H.
  - exact (proj1 (token_only_in_header ascii_runtime environ1 environ2
                    noon noon created db_down (sample_request "1.2.3" 1024)
                    req2 Hagree eq_refl Hin1 Hin2)).
Defined.

(** ** The body on the wire *)






(** A hexadecimal digit as [hex4] writes it: 0 to 9 or a to f. *)
Lemma hexdigit_range (n : N) :
  let h := hexdigit (n mod 16) in
  (48 <= h <= 57 \/ 97 <= h <= 102)%N.
Proof.
  cbv zeta. unfold hexdigit.
  assert (Hm : (n mod 16 < 16)%N) by (apply N.mod_lt; discriminate).
  set (m := (n mod 16)%N) in *. clearbody m.
  destruct (N.ltb_spec m 10); lia.
Qed.








(** Release notes of two lines, a quotation and a lone surrogate, as the
    environment delivers bytes that are not UTF-8. *)
Example body_printable_sample :
  let notes := py "Fixes:" ++ [10; 34; 233; 56448; 34]%N in
  encode_utf8 notes = None
  /\ dumps_str notes = [34%N] ++ py "Fixes:\n\" ++ [34%N] ++ py "\u00e9\udc80\"
                       ++ [34; 34]%N.
Proof. split; reflexivity. Qed.

(** ** [int] reads back what [str] writes *)

Lemma uint_str_to_ascii rt (d : Decimal.uint) :
  map (to_ascii_decimal rt) (uint_str d) = uint_str d.
Proof. induction d; cbn [uint_str map]; try rewrite IHd; reflexivity. Qed.

Lemma scan_uint_acc (d : Decimal.uint) (acc : positive) (n : N) :
  scan_digits false (N.pos acc) n (uint_str d)
  = Some (N.pos (Pos.of_uint_acc d acc),
          (n + N.of_nat (length (uint_str d)))%N, []).
Proof.
  revert acc n. induction d; intros acc n;
    cbn [uint_str scan_digits Pos.of_uint_acc length];
    try (cbn [N.eqb Pos.eqb digit_value N.leb N.compare Pos.compare
                Pos.compare_cont andb N.sub Pos.sub];
         rewrite ?Nat2N.inj_succ);
    [ f_equal; f_equal; f_equal; cbn; lia | .. ].
  all: match goal with
       | |- scan_digits false ?v ?m _ = Some (N.pos (Pos.of_uint_acc _ ?a), _, _) =>
           replace v with (N.pos a) by lia;
           rewrite IHd; f_equal; f_equal; f_equal; lia
       end.
Qed.

Lemma scan_uint (d : Decimal.uint) (n : N) :
  scan_digits false 0 n (uint_str d)
  = Some (Pos.of_uint d, (n + N.of_nat (length (uint_str d)))%N, []).
Proof.
  revert n. induction d; intros n;
    cbn [uint_str scan_digits Pos.of_uint length];
    try (cbn [N.eqb Pos.eqb digit_value N.leb N.compare Pos.compare
                Pos.compare_cont andb N.sub Pos.sub N.mul N.add];
         rewrite ?Nat2N.inj_succ;
         match goal with
         | |- scan_digits false ?v _ _ = _ =>
             let v' := eval vm_compute in v in change v with v'
         end;
         first [rewrite IHd | rewrite scan_uint_acc]);
    f_equal; f_equal; f_equal; cbn; lia.
Qed.

Lemma py_int_signed rt (negative : bool) (d : Decimal.uint) :
  d <> Decimal.Nil ->
  (length (uint_str d) <= 640)%nat ->
  py_int rt ((if negative then [45%N] else []) ++ uint_str d)
  = Some (if negative then (- Z.of_N (Pos.of_uint d))%Z
          else Z.of_N (Pos.of_uint d)).
Proof.
  intros Hnil Hlen.
  assert (Hscan := scan_uint d 0).
  assert (Hdigits : (0 + N.of_nat (length (uint_str d)) =? 0)%N = false).
  { apply N.eqb_neq. destruct d; [contradiction | ..]; cbn [uint_str length];
      lia. }
  assert (Hlimit : (640 <? 0 + N.of_nat (length (uint_str d)))%N = false).
  { apply N.ltb_ge. lia. }
  set (digits := (0 + N.of_nat (length (uint_str d)))%N) in *.
  clearbody digits. clear Hlen.
  unfold py_int.
  rewrite map_app, uint_str_to_ascii.
  destruct negative, d; try contradiction;
    cbn [uint_str] in *; cbn -[scan_digits];
    rewrite Hscan; cbv beta iota; rewrite Hdigits, Hlimit; reflexivity.
Qed.

(** X8: [int] reads the decimal text of an integer, as [str] and
    [json.dumps] write it, back as that integer, for every text of up to
    640 characters (beyond that the digit limit of the interpreter
    decides): a FILE_SIZE written that way is sent as it stands. *)
Theorem int_reads_back_str rt (z : Z) :
  (length (str_int z) <= 640)%nat ->
  py_int rt (str_int z) = Some z
  /\ dumps_value (JInt z) = str_int z.
Proof.
  intros Hlen. split; [| reflexivity].
  unfold str_int, Z.to_int in *. destruct z as [|p|p].
  - reflexivity.
  - pose proof (py_int_signed rt false (Pos.to_uint p)
                  (DecimalPos.Unsigned.to_uint_nonnil p) Hlen) as H.
    cbn [app] in H. rewrite H, DecimalPos.Unsigned.of_to. reflexivity.
  - assert (Hlen' : (length (uint_str (Pos.to_uint p)) <= 640)%nat)
      by (cbn [length] in Hlen; lia).
    pose proof (py_int_signed rt true (Pos.to_uint p)
                  (DecimalPos.Unsigned.to_uint_nonnil p) Hlen') as H.
    cbn [app] in H. rewrite H, DecimalPos.Unsigned.of_to. reflexivity.
Qed.

Lemma int_reads_back_str_witness :
  (length (str_int (-52428800)) <= 640)%nat
  /\ str_int (-52428800) = py "-52428800"
  /\ py_int ascii_runtime (py "-52428800") = Some (-52428800)%Z.
Proof.
  assert (Hlen : (length (str_int (-52428800)) <= 640)%nat)
    by (vm_compute; lia).
  split; [exact Hlen |]. split; [reflexivity |].
  exact (proj1 (int_reads_back_str ascii_runtime (-52428800) Hlen)).
Defined.

(** ** UTF-8 there and back *)

Ltac decide_bounds :=
  repeat match goal with
         | |- context [(?a <? ?b)%N] =>
             destruct (N.ltb_spec a b); try lia
         | |- context [(?a <=? ?b)%N] =>
             destruct (N.leb_spec a b); try lia
         end.

Lemma decode_encode_char (c : N) (b rest : list N) :
  encode_char c = Some b ->
  decode_utf8 (b ++ rest) = cons c <$> decode_utf8 rest.
Proof.
  unfold encode_char.
  assert (H0 : (c = 64 * (c / 64) + c mod 64 /\ c mod 64 < 64)%N).
  { split; [apply N.div_mod' | apply N.mod_lt; discriminate]. }
  assert (H1 : (c / 64 = 64 * (c / 4096) + c / 64 mod 64
                /\ c / 64 mod 64 < 64)%N).
  { change 4096%N with (64 * 64)%N. rewrite <- N.Div0.div_div.
    split; [apply N.div_mod' | apply N.mod_lt; discriminate]. }
  assert (H2 : (c / 4096 = 64 * (c / 262144) + c / 4096 mod 64
                /\ c / 4096 mod 64 < 64)%N).
  { change 262144%N with (4096 * 64)%N. rewrite <- N.Div0.div_div.
    split; [apply N.div_mod' | apply N.mod_lt; discriminate]. }
  set (r0 := (c mod 64)%N) in *. set (r1 := (c / 64 mod 64)%N) in *.
  set (r2 := (c / 4096 mod 64)%N) in *.
  set (q1 := (c / 64)%N) in *. set (q2 := (c / 4096)%N) in *.
  set (q3 := (c / 262144)%N) in *.
  clearbody r0 r1 r2 q1 q2 q3.
  destruct H0 as [E0 B0], H1 as [E1 B1], H2 as [E2 B2].
  destruct (N.ltb_spec c 128).
  { intros [= <-]. cbn [app decode_utf8]. decide_bounds. reflexivity. }
  destruct (N.ltb_spec c 2048).
  { intros [= <-]. cbn [app decode_utf8]. unfold is_cont.
    decide_bounds. cbn [andb]. f_equal. f_equal. lia. }
  destruct (N.ltb_spec c 65536).
  { unfold is_surrogate.
    destruct (N.leb_spec 55296 c); destruct (N.leb_spec c 57343);
      cbn [andb]; try discriminate;
      intros [= <-]; cbn [app decode_utf8]; unfold is_cont, is_surrogate;
      decide_bounds; cbn [andb negb]; f_equal; f_equal; lia. }
  destruct (N.ltb_spec c 1114112); [| discriminate].
  intros [= <-]. cbn [app decode_utf8]. unfold is_cont.
  decide_bounds. cbn [andb]. f_equal. f_equal. lia.
Qed.

(** X9: what [encode("utf-8")] produces, [decode("utf-8")] reads back as
    the same text; a string with a lone surrogate or a code point beyond
    U+10FFFF is not encoded at all. *)
Theorem utf8_round_trip (s b : list N) :
  encode_utf8 s = Some b -> decode_utf8 b = Some s.
Proof.
  revert b. induction s as [|c s IH]; intros b; cbn [encode_utf8].
  - intros [= <-]. reflexivity.
  - destruct (encode_char c) as [bc|] eqn:Hc; [| discriminate].
    destruct (encode_utf8 s) as [bs|]; [| discriminate].
    intros [= <-].
    rewrite (decode_encode_char c bc bs Hc), (IH bs eq_refl). reflexivity.
Qed.

Lemma utf8_round_trip_witness :
  encode_utf8 [70; 233; 8364; 128512]%N
  = Some [70; 195; 169; 226; 130; 172; 240; 159; 152; 128]%N
  /\ decode_utf8 [70; 195; 169; 226; 130; 172; 240; 159; 152; 128]%N
     = Some [70; 233; 8364; 128512]%N.
Proof.
  split; [reflexivity |].
  exact (utf8_round_trip [70; 233; 8364; 128512]%N
           [70; 195; 169; 226; 130; 172; 240; 159; 152; 128]%N eq_refl).
Defined.

(** ** No value closes its own string *)

(** A reader of JSON string tokens: given what follows the opening quote,
    it takes a backslash together with the character after it, stops at
    the first quote left over, and returns what follows that quote. *)
Fixpoint after_string (s : list N) : option (list N) :=
  match s with
  | [] => None
  | c :: rest =>
      if (c =? 34)%N then Some rest
      else if (c =? 92)%N then
        match rest with
        | [] => None
        | _ :: rest' => after_string rest'
        end
      else after_string rest
  end.

Lemma after_string_hexdigit (n : N) (tail : list N) :
  after_string (hexdigit (n mod 16) :: tail) = after_string tail.
Proof.
  pose proof (hexdigit_range n) as H. cbv zeta in H.
  cbn [after_string].
  destruct (N.eqb_spec (hexdigit (n mod 16)) 34); [lia |].
  destruct (N.eqb_spec (hexdigit (n mod 16)) 92); [lia |].
  reflexivity.
Qed.

Lemma after_string_u_escape (n : N) (tail : list N) :
  after_string (u_escape n ++ tail) = after_string tail.
Proof.
  unfold u_escape, hex4. cbn [app].
  change (after_string (92%N :: 117%N :: ?l)) with (after_string l).
  rewrite !after_string_hexdigit. reflexivity.
Qed.

Lemma after_string_escape_char (c : N) (tail : list N) :
  after_string (escape_char c ++ tail) = after_string tail.
Proof.
  unfold escape_char.
  destruct (c =? 34)%N eqn:Hquote; [reflexivity |].
  destruct (c =? 92)%N eqn:Hslash; [reflexivity |].
  destruct (c =? 8)%N; [reflexivity |].
  destruct (c =? 12)%N; [reflexivity |].
  destruct (c =? 10)%N; [reflexivity |].
  destruct (c =? 13)%N; [reflexivity |].
  destruct (c =? 9)%N; [reflexivity |].
  destruct ((32 <=? c)%N && (c <=? 126)%N).
  - cbn [app after_string]. rewrite Hquote, Hslash. reflexivity.
  - destruct (c <? 65536)%N.
    + apply after_string_u_escape.
    + rewrite <- app_assoc, !after_string_u_escape. reflexivity.
Qed.

(** X10: whatever a string holds, the text [json.dumps] writes for it is
    one string token: a reader that starts after its opening quote stops
    at its closing quote and nowhere before, so no value of the
    environment can end its field early or add one. *)
Theorem dumps_str_one_token (s rest : list N) :
  exists inner,
    dumps_str s ++ rest = 34%N :: inner
    /\ after_string inner = Some rest.
Proof.
  exists (concat (map escape_char s) ++ 34%N :: rest). split.
  - unfold dumps_str. cbn [app]. rewrite <- app_assoc. reflexivity.
  - induction s as [|c s IH]; cbn [map concat app].
    + reflexivity.
    + rewrite <- app_assoc, after_string_escape_char. exact IH.
Qed.

(** Release notes that try to close the field and open another. *)
Example dumps_str_injection :
  let notes := [34; 44; 32; 34; 120; 34; 58; 32; 34; 49]%N in
  dumps_str notes = [34; 92; 34; 44; 32; 92; 34; 120; 92; 34; 58; 32; 92; 34;
                     49; 34]%N
  /\ after_string (tl (dumps_str notes) ++ [125%N]) = Some [125%N].
Proof. split; reflexivity. Qed.

(** ** What [int] turns away *)










